(** * Inventory stock ledger and consumption engine of the bakery backend

    A shallow embedding of

      - [orders/signals.py]: [deduct_ingredients_on_order_confirmation],
        [deduct_ingredients_for_cake];
      - [inventory/views.py]: [IngredientViewSet.deduct_stock],
        [PurchaseOrderViewSet.receive_items],
        [RecipeViewSet.check_availability].

    Conventions.

      - A [Decimal] is an exact rational ([Q]); the 28-digit context of
        Python's decimal module and the column widths of the database are
        not modelled.  Python compares decimals numerically, which is
        [Qeq]/[Qlt] here.
      - The request amount of [deduct_stock] goes through [float] and back
        through [Decimal(str(.))]; both are taken to be exact, so an amount
        is the rational it denotes.
      - A database table is the list of its rows in primary-key order; the
        movement table is kept in creation order, the newest row last.
      - [print] appends an event to the list that stands for standard
        output. *)

From Stdlib Require Import QArith Lqa List String Ascii Bool Lia ZArith.
From Stdlib Require Import DecimalString.
Import ListNotations.
Local Open Scope Q_scope.

(** ** Decimals *)

Module Dec.

(** [a < b] on decimals, as a boolean. *)
Definition ltb (a b : Q) : bool := negb (Qle_bool b a).

(** [a >= b] on decimals, as a boolean. *)
Definition geb (a b : Q) : bool := Qle_bool b a.

(** Python's [max(a, b)]: the first argument unless the second is
    strictly greater. *)
Definition max (a b : Q) : Q := if ltb a b then b else a.

(** [str(n)] of an integer, used inside formatted notes. *)
Definition str_int (n : Z) : string := NilZero.string_of_int (Z.to_int n).

End Dec.

(** ** Strings: the [iexact] lookup *)

Definition lower_ascii (c : ascii) : ascii :=
  let n := nat_of_ascii c in
  if (Nat.leb 65 n && Nat.leb n 90)%bool then ascii_of_nat (n + 32) else c.

Fixpoint lower (s : string) : string :=
  match s with
  | EmptyString => EmptyString
  | String c r => String (lower_ascii c) (lower r)
  end.

(** [name__iexact]: equality up to the case of ASCII letters. *)
Definition iexact (a b : string) : bool := String.eqb (lower a) (lower b).

(** ** The models

    [inventory/models.py], [orders/models.py] and [users/models.py] are not
    part of the sources; the records below carry the fields that the views
    and the signal handler read and write. *)

Module User.
Record t := mk {
  id : Z;
  user_type : string;
  is_admin : bool;
  is_inventory_manager : bool;
  is_staff_member : bool
}.
End User.

Module Ingredient.
Record t := mk {
  id : Z;
  name : string;
  unit : string;
  current_stock : Q;
  minimum_stock : Q;
  unit_cost : Q
}.

Definition set_current_stock (s : Q) (i : t) : t :=
  mk (id i) (name i) (unit i) s (minimum_stock i) (unit_cost i).

Definition set_unit_cost (c : Q) (i : t) : t :=
  mk (id i) (name i) (unit i) (current_stock i) (minimum_stock i) c.
End Ingredient.

(** [movement_type]: the kinds that occur in the sources. *)
Inductive MovementType := MoveIn | MoveOut | MoveWaste.

Module StockMovement.
Record t := mk {
  ingredient : Z;             (* foreign key *)
  movement_type : MovementType;
  quantity : Q;
  previous_stock : Q;
  new_stock : Q;
  unit_cost : Q;
  total_value : Q;
  reference : string;
  notes : string;
  created_by : Z              (* foreign key *)
}.
End StockMovement.

Module PurchaseOrderItem.
Record t := mk {
  id : Z;
  purchase_order : Z;         (* foreign key *)
  ingredient : Z;             (* foreign key *)
  quantity : Q;
  received_quantity : Q;
  unit_cost : Q
}.

Definition set_received_quantity (r : Q) (i : t) : t :=
  mk (id i) (purchase_order i) (ingredient i) (quantity i) r (unit_cost i).
End PurchaseOrderItem.

Module PurchaseOrder.
Record t := mk {
  id : Z;
  po_number : string;
  status : string;
  delivery_date : option string
}.
End PurchaseOrder.

(** The persisted state that the modelled code touches. *)
Record DB := mkDB {
  users : list User.t;
  ingredients : list Ingredient.t;
  movements : list StockMovement.t;
  purchase_orders : list PurchaseOrder.t;
  purchase_order_items : list PurchaseOrderItem.t
}.

Definition with_ingredients (l : list Ingredient.t) (db : DB) : DB :=
  mkDB (users db) l (movements db) (purchase_orders db)
       (purchase_order_items db).

Definition with_movements (l : list StockMovement.t) (db : DB) : DB :=
  mkDB (users db) (ingredients db) l (purchase_orders db)
       (purchase_order_items db).

Definition with_purchase_orders (l : list PurchaseOrder.t) (db : DB) : DB :=
  mkDB (users db) (ingredients db) (movements db) l
       (purchase_order_items db).

Definition with_purchase_order_items (l : list PurchaseOrderItem.t) (db : DB)
  : DB :=
  mkDB (users db) (ingredients db) (movements db) (purchase_orders db) l.

(** ** Queries *)

(** [Ingredient.objects.filter(name__iexact=n)]. *)
Definition ingredients_named (n : string) (db : DB) : list Ingredient.t :=
  filter (fun i => iexact (Ingredient.name i) n) (ingredients db).

(** The row with primary key [pk], if any. *)
Definition get_ingredient (pk : Z) (db : DB) : option Ingredient.t :=
  find (fun i => Z.eqb (Ingredient.id i) pk) (ingredients db).

(** [ingredient.save()]: the row with the primary key of [i] becomes [i]. *)
Definition save_ingredient (i : Ingredient.t) (db : DB) : DB :=
  with_ingredients
    (map (fun r => if Z.eqb (Ingredient.id r) (Ingredient.id i) then i else r)
         (ingredients db))
    db.

(** ** The movement ledger and the stock register *)

(** The signed change of the balance that a movement of kind [k] and
    quantity [q] stands for. *)
Definition signed (k : MovementType) (q : Q) : Q :=
  match k with
  | MoveIn => q
  | MoveOut | MoveWaste => - q
  end.

(** Modelled from the spec: [StockMovement.objects.create] called with
    [previous_stock] and [new_stock], as the two deduction paths call it;
    the [StockMovement] model ([inventory/models.py]) is missing from the
    sources.  It is the Movement Ledger's [append]: it validates that the
    quantity is positive and that the two balances are consistent with the
    signed delta, and writes the entry at the end of the ledger; a
    malformed entry is rejected ([None] stands for the exception
    [InvalidMovement]). *)
Definition StockMovement_create (m : StockMovement.t) (db : DB) : option DB :=
  if (Dec.ltb 0 (StockMovement.quantity m)
      && Qeq_bool (StockMovement.new_stock m)
           (StockMovement.previous_stock m
            + signed (StockMovement.movement_type m)
                     (StockMovement.quantity m)))%bool
  then Some (with_movements (movements db ++ [m]) db)
  else None.

(** Modelled from the spec: [StockMovement.objects.create] called with
    [movement_type='in'] and without balances, as [receive_items] calls it;
    the [StockMovement] model ([inventory/models.py]) is missing from the
    sources.  It is the Stock Register's [add(ingredient, qty, unitCost,
    reference, actor)]: it reads the current balance, computes the new one,
    writes it together with the incoming unit cost and appends the
    movement.  [None] stands for a dangling ingredient key or a rejected
    entry. *)
Definition StockMovement_create_in
    (ingredient : Z) (qty unit_cost : Q) (reference notes : string)
    (created_by : Z) (db : DB) : option DB :=
  match get_ingredient ingredient db with
  | None => None
  | Some ing =>
      let previous_stock := Ingredient.current_stock ing in
      let new_stock := previous_stock + qty in
      let db1 :=
        save_ingredient
          (Ingredient.set_unit_cost unit_cost
             (Ingredient.set_current_stock new_stock ing)) db in
      StockMovement_create
        (StockMovement.mk ingredient MoveIn qty previous_stock new_stock
           unit_cost (qty * unit_cost) reference notes created_by)
        db1
  end.

(** ** [orders/signals.py] *)

(** What the handler prints. *)
Inductive Log :=
| WarnNoSystemUser
| WarnNoIngredients (cake : string)
| WarnIngredientNotFound (name : string)
| WarnMultipleIngredients (name : string)
| WarnInsufficientStock (name : string) (required available : Q)
| Deducted (qty : Q) (unit name order_number : string)
| ErrorDeducting (cake : string).

(** One entry of the JSON list [cake.ingredients]; a missing key has the
    default of the handler's [.get] ([''], [0], ['kg']). *)
Module IngredientData.
Record t := mk { name : string; quantity : Q; unit : string }.
End IngredientData.

Module Cake.
Record t := mk { name : string; ingredients : list IngredientData.t }.
End Cake.

Module OrderItem.
Record t := mk { cake : Cake.t; quantity : Z }.
End OrderItem.

(** An [Order] row together with its [items]. *)
Module Order.
Record t := mk {
  order_number : string;
  order_status : string;
  items : list OrderItem.t
}.
End Order.

(** An [Order] object in the memory of one process: the row, and whether
    the attribute [_ingredients_deducted] has been set on this object. *)
Module Instance.
Record t := mk { row : Order.t; _ingredients_deducted : bool }.

(** What the ORM returns for a row: an object without the attribute. *)
Definition load (o : Order.t) : t := mk o false.
End Instance.

(** The database and standard output. *)
Definition World := (DB * list Log)%type.

(** How a piece of the [try] block ends. *)
Inductive outcome :=
| Done (w : World)
| Raised (w : World).

(** The body of the loop over [cake_ingredients]. *)
Definition deduct_entry (cake_name : string) (quantity : Z)
    (order_number : string) (system_user : User.t)
    (ingredient_data : IngredientData.t) (w : World) : outcome :=
  let '(db, out) := w in
  let ingredient_name := IngredientData.name ingredient_data in
  let ingredient_quantity := IngredientData.quantity ingredient_data in
  let ingredient_unit := IngredientData.unit ingredient_data in
  if (String.eqb ingredient_name "" || Qle_bool ingredient_quantity 0)%bool
  then Done (db, out)
  else
    match ingredients_named ingredient_name db with
    | [] => Done (db, out ++ [WarnIngredientNotFound ingredient_name])
    | ingredient :: others =>
        let out :=
          match others with
          | [] => out
          | _ :: _ => out ++ [WarnMultipleIngredients ingredient_name]
          end in
        let total_quantity_needed := ingredient_quantity * inject_Z quantity in
        let short :=
          Dec.ltb (Ingredient.current_stock ingredient) total_quantity_needed in
        let out :=
          if short
          then out ++ [WarnInsufficientStock ingredient_name
                         total_quantity_needed
                         (Ingredient.current_stock ingredient)]
          else out in
        let total_quantity_needed :=
          if short then Ingredient.current_stock ingredient
          else total_quantity_needed in
        if Dec.ltb 0 total_quantity_needed then
          let previous_stock := Ingredient.current_stock ingredient in
          let new_stock := Dec.max 0 (previous_stock - total_quantity_needed) in
          let db := save_ingredient
                      (Ingredient.set_current_stock new_stock ingredient) db in
          match
            StockMovement_create
              (StockMovement.mk (Ingredient.id ingredient) MoveOut
                 total_quantity_needed previous_stock new_stock
                 (Ingredient.unit_cost ingredient)
                 (total_quantity_needed * Ingredient.unit_cost ingredient)
                 ("ORDER-" ++ order_number)
                 ("Automatic deduction for order #" ++ order_number ++ " - "
                    ++ cake_name ++ " (x" ++ Dec.str_int quantity ++ ")")
                 (User.id system_user))
              db
          with
          | Some db =>
              Done (db, out ++ [Deducted total_quantity_needed ingredient_unit
                                  ingredient_name order_number])
          | None => Raised (db, out)
          end
        else Done (db, out)
    end.

(** The loop over [cake_ingredients]; an exception leaves it. *)
Fixpoint deduct_entries (cake_name : string) (quantity : Z)
    (order_number : string) (system_user : User.t)
    (cake_ingredients : list IngredientData.t) (w : World) : outcome :=
  match cake_ingredients with
  | [] => Done w
  | ingredient_data :: rest =>
      match deduct_entry cake_name quantity order_number system_user
              ingredient_data w with
      | Done w' =>
          deduct_entries cake_name quantity order_number system_user rest w'
      | Raised w' => Raised w'
      end
  end.

Definition deduct_ingredients_for_cake (cake : Cake.t) (quantity : Z)
    (order : Order.t) (system_user : User.t) (w : World) : World :=
  match Cake.ingredients cake with
  | [] => (fst w, snd w ++ [WarnNoIngredients (Cake.name cake)])
  | cake_ingredients =>
      match deduct_entries (Cake.name cake) quantity
              (Order.order_number order) system_user cake_ingredients w with
      | Done w' => w'
      | Raised (db, out) => (db, out ++ [ErrorDeducting (Cake.name cake)])
      end
  end.

(** The loop over [instance.items.all()]. *)
Fixpoint deduct_order_items (order : Order.t) (system_user : User.t)
    (items : list OrderItem.t) (w : World) : World :=
  match items with
  | [] => w
  | order_item :: rest =>
      deduct_order_items order system_user rest
        (deduct_ingredients_for_cake (OrderItem.cake order_item)
           (OrderItem.quantity order_item) order system_user w)
  end.

Definition qualifying (order_status : string) : bool :=
  (String.eqb order_status "confirmed"
   || String.eqb order_status "preparing")%bool.

(** [User.objects.filter(user_type__in=[...]).first()]. *)
Definition find_system_user (db : DB) : option User.t :=
  find (fun u => (String.eqb (User.user_type u) "admin"
                  || String.eqb (User.user_type u) "inventory_manager")%bool)
       (users db).

(** The [post_save] receiver: the instance after the call, and the world. *)
Definition deduct_ingredients_on_order_confirmation
    (instance : Instance.t) (w : World) : Instance.t * World :=
  if qualifying (Order.order_status (Instance.row instance)) then
    if Instance._ingredients_deducted instance then (instance, w)
    else
      match find_system_user (fst w) with
      | None => (instance, (fst w, snd w ++ [WarnNoSystemUser]))
      | Some system_user =>
          let w' := deduct_order_items (Instance.row instance) system_user
                      (Order.items (Instance.row instance)) w in
          (Instance.mk (Instance.row instance) true, w')
      end
  else (instance, w).

(** ** [inventory/views.py] *)

(** A value of the request body. *)
Inductive json :=
| JNull
| JBool (b : bool)
| JNum (q : Q)
| JStr (s : string).

(** Python's truth value, as [not deduction_amount] reads it. *)
Definition truthy (v : json) : bool :=
  match v with
  | JNull => false
  | JBool b => b
  | JNum q => negb (Qeq_bool q 0)
  | JStr s => negb (String.eqb s "")
  end.

Definition digit_of (c : ascii) : option Z :=
  let n := nat_of_ascii c in
  if (Nat.leb 48 n && Nat.leb n 57)%bool then Some (Z.of_nat (n - 48))
  else None.

(** The digits after the point. *)
Fixpoint parse_fraction (s : string) (num : Z) (den : positive) : option Q :=
  match s with
  | EmptyString => Some (num # den)
  | String c r =>
      match digit_of c with
      | Some d => parse_fraction r (num * 10 + d) (den * 10)
      | None => None
      end
  end.

(** The digits before the point; [seen] tells that one has been read. *)
Fixpoint parse_digits (s : string) (num : Z) (seen : bool) : option Q :=
  match s with
  | EmptyString => if seen then Some (num # 1) else None
  | String c r =>
      match digit_of c with
      | Some d => parse_digits r (num * 10 + d) true
      | None =>
          if (Ascii.eqb c "." && seen)%bool then parse_fraction r num 1
          else None
      end
  end.

(** [float(s)] for a string, on plain decimal literals
    ([sign] digits [[.] digits]); [None] is [ValueError].  Whatever else
    Python's [float] reads (exponents, [inf], [nan], blanks) counts as not
    numeric here. *)
Definition float_of_string (s : string) : option Q :=
  match s with
  | String "-" r => option_map Qopp (parse_digits r 0 false)
  | String "+" r => parse_digits r 0 false
  | _ => parse_digits s 0 false
  end.

(** [float(v)]; [None] is [ValueError] or [TypeError]. *)
Definition float (v : json) : option Q :=
  match v with
  | JNull => None
  | JBool b => Some (if b then 1 else 0)
  | JNum q => Some q
  | JStr s => float_of_string s
  end.

Inductive Message :=
| NoPermissionToDeduct
| AmountRequired
| AmountMustBePositive
| InvalidAmount
| InsufficientStock (available requested : Q)
| SuccessfullyDeducted (amount previous_stock new_stock : Q)
| ItemsReceived.

(** The HTTP answers of the modelled actions. *)
Inductive Response :=
| HTTP_200_OK (m : Message)
| HTTP_400_BAD_REQUEST (m : Message)
| HTTP_403_FORBIDDEN (m : Message)
| PermissionDenied
| HTTP_404_NOT_FOUND
| HTTP_500.

Definition is_200 (r : Response) : bool :=
  match r with HTTP_200_OK _ => true | _ => false end.

(** [IngredientViewSet.get_queryset]. *)
Definition ingredient_queryset (user : User.t) (db : DB)
  : list Ingredient.t :=
  if (User.is_admin user || User.is_inventory_manager user
      || User.is_staff_member user)%bool
  then ingredients db else [].

(** [IngredientViewSet.deduct_stock]; [reason] is the request's ['reason']
    (or its default) and [now] the formatted time of the call. *)
Definition deduct_stock (user : User.t) (pk : Z) (amount : json)
    (reason now : string) (db : DB) : Response * DB :=
  match ingredient_queryset user db with
  | [] => (PermissionDenied, db)
  | queryset =>
      match find (fun i => Z.eqb (Ingredient.id i) pk) queryset with
      | None => (HTTP_404_NOT_FOUND, db)
      | Some ingredient =>
          if negb (User.is_admin user || User.is_inventory_manager user
                   || User.is_staff_member user)
          then (HTTP_403_FORBIDDEN NoPermissionToDeduct, db)
          else if negb (truthy amount)
          then (HTTP_400_BAD_REQUEST AmountRequired, db)
          else
            match float amount with
            | None => (HTTP_400_BAD_REQUEST InvalidAmount, db)
            | Some deduction_amount =>
                if Qle_bool deduction_amount 0
                then (HTTP_400_BAD_REQUEST AmountMustBePositive, db)
                else if Dec.ltb (Ingredient.current_stock ingredient)
                                deduction_amount
                then (HTTP_400_BAD_REQUEST
                        (InsufficientStock (Ingredient.current_stock ingredient)
                           deduction_amount), db)
                else
                  let previous_stock := Ingredient.current_stock ingredient in
                  let deduction_decimal := deduction_amount in
                  let new_stock := previous_stock - deduction_decimal in
                  let db1 :=
                    save_ingredient
                      (Ingredient.set_current_stock new_stock ingredient) db in
                  match
                    StockMovement_create
                      (StockMovement.mk (Ingredient.id ingredient) MoveOut
                         deduction_decimal previous_stock new_stock
                         (Ingredient.unit_cost ingredient)
                         (deduction_decimal * Ingredient.unit_cost ingredient)
                         ("MANUAL-" ++ now)
                         ("Manual deduction: " ++ reason)
                         (User.id user))
                      db1
                  with
                  | Some db2 =>
                      (HTTP_200_OK (SuccessfullyDeducted deduction_amount
                                      previous_stock new_stock), db2)
                  | None => (HTTP_500, db1)
                  end
            end
      end
  end.

(** One entry of the request's [received_items], with its two keys present
    and a number for ['received_quantity']. *)
Module ItemData.
Record t := mk { item_id : Z; received_quantity : Q }.
End ItemData.

(** [PurchaseOrderViewSet.get_queryset]. *)
Definition purchase_order_queryset (user : User.t) (db : DB)
  : list PurchaseOrder.t :=
  if (User.is_admin user || User.is_inventory_manager user)%bool
  then purchase_orders db else [].

(** [PurchaseOrderItem.objects.get(id=item_id, purchase_order=po)]. *)
Definition get_po_item (item_id po : Z) (db : DB)
  : option PurchaseOrderItem.t :=
  find (fun i => (Z.eqb (PurchaseOrderItem.id i) item_id
                  && Z.eqb (PurchaseOrderItem.purchase_order i) po)%bool)
       (purchase_order_items db).

(** [po_item.save()]. *)
Definition save_po_item (i : PurchaseOrderItem.t) (db : DB) : DB :=
  with_purchase_order_items
    (map (fun r => if Z.eqb (PurchaseOrderItem.id r) (PurchaseOrderItem.id i)
                   then i else r)
         (purchase_order_items db))
    db.

(** [purchase_order.save()]. *)
Definition save_purchase_order (p : PurchaseOrder.t) (db : DB) : DB :=
  with_purchase_orders
    (map (fun r => if Z.eqb (PurchaseOrder.id r) (PurchaseOrder.id p)
                   then p else r)
         (purchase_orders db))
    db.

(** [purchase_order.items.all()]. *)
Definition items_of (po : Z) (db : DB) : list PurchaseOrderItem.t :=
  filter (fun i => Z.eqb (PurchaseOrderItem.purchase_order i) po)
         (purchase_order_items db).

(** The body of the loop over [received_items]; [inr] is an exception
    that the [try] does not catch, with the database as it was left. *)
Definition receive_item (user : User.t) (purchase_order : PurchaseOrder.t)
    (item_data : ItemData.t) (db : DB) : DB + DB :=
  let item_id := ItemData.item_id item_data in
  let received_quantity := ItemData.received_quantity item_data in
  match get_po_item item_id (PurchaseOrder.id purchase_order) db with
  | None => inl db
  | Some po_item =>
      let db1 :=
        save_po_item
          (PurchaseOrderItem.set_received_quantity received_quantity po_item)
          db in
      if Dec.ltb 0 received_quantity then
        match
          StockMovement_create_in (PurchaseOrderItem.ingredient po_item)
            received_quantity (PurchaseOrderItem.unit_cost po_item)
            ("PO #" ++ PurchaseOrder.po_number purchase_order)
            "Received from purchase order" (User.id user) db1
        with
        | Some db2 => inl db2
        | None => inr db1
        end
      else inl db1
  end.

(** The loop over [received_items]. *)
Fixpoint receive_loop (user : User.t) (purchase_order : PurchaseOrder.t)
    (received_items : list ItemData.t) (db : DB) : DB + DB :=
  match received_items with
  | [] => inl db
  | item_data :: rest =>
      match receive_item user purchase_order item_data db with
      | inl db' => receive_loop user purchase_order rest db'
      | inr db' => inr db'
      end
  end.

Definition all_received (po : Z) (db : DB) : bool :=
  forallb (fun item => Dec.geb (PurchaseOrderItem.received_quantity item)
                               (PurchaseOrderItem.quantity item))
          (items_of po db).

(** [PurchaseOrderViewSet.receive_items]; [today] is the date of the
    call. *)
Definition receive_items (user : User.t) (pk : Z)
    (received_items : list ItemData.t) (today : string) (db : DB)
  : Response * DB :=
  match find (fun p => Z.eqb (PurchaseOrder.id p) pk)
             (purchase_order_queryset user db) with
  | None => (HTTP_404_NOT_FOUND, db)
  | Some purchase_order =>
      match receive_loop user purchase_order received_items db with
      | inr db' => (HTTP_500, db')
      | inl db' =>
          if all_received (PurchaseOrder.id purchase_order) db' then
            (HTTP_200_OK ItemsReceived,
             save_purchase_order
               (PurchaseOrder.mk (PurchaseOrder.id purchase_order)
                  (PurchaseOrder.po_number purchase_order)
                  "received" (Some today))
               db')
          else (HTTP_200_OK ItemsReceived, db')
      end
  end.

(** A [RecipeIngredient] row with the [Ingredient] it points to. *)
Module RecipeIngredient.
Record t := mk { ingredient : Ingredient.t; quantity : Q }.
End RecipeIngredient.

Module Recipe.
Record t := mk { name : string; ingredients : list RecipeIngredient.t }.
End Recipe.

(** One entry of ['unavailable_ingredients']. *)
Module Unavailable.
Record t := mk {
  ingredient : string;
  required : Q;
  available : Q;
  shortage : Q
}.
End Unavailable.

Module Availability.
Record t := mk {
  recipe : string;
  servings : Z;
  available : bool;
  unavailable_ingredients : list Unavailable.t
}.
End Availability.

(** The loop of [check_availability]. *)
Fixpoint unavailable (servings : Z) (l : list RecipeIngredient.t)
  : list Unavailable.t :=
  match l with
  | [] => []
  | recipe_ingredient :: rest =>
      let required_quantity :=
        RecipeIngredient.quantity recipe_ingredient * inject_Z servings in
      let available_quantity :=
        Ingredient.current_stock
          (RecipeIngredient.ingredient recipe_ingredient) in
      if Dec.ltb available_quantity required_quantity then
        Unavailable.mk
          (Ingredient.name (RecipeIngredient.ingredient recipe_ingredient))
          required_quantity available_quantity
          (required_quantity - available_quantity)
        :: unavailable servings rest
      else unavailable servings rest
  end.

(** [RecipeViewSet.check_availability]. *)
Definition check_availability (recipe : Recipe.t) (servings : Z)
  : Availability.t :=
  let unavailable_ingredients :=
    unavailable servings (Recipe.ingredients recipe) in
  Availability.mk (Recipe.name recipe) servings
    (Nat.eqb (List.length unavailable_ingredients) 0)
    unavailable_ingredients.

(** ** The lines of an order that can be deducted *)

(** The ingredient name of a recipe entry matches a row of the database. *)
Definition resolves (db : DB) (d : IngredientData.t) : bool :=
  match ingredients_named (IngredientData.name d) db with
  | [] => false
  | _ :: _ => true
  end.

Definition has_recipe (cake : Cake.t) : bool :=
  match Cake.ingredients cake with [] => false | _ :: _ => true end.

(** A cake with the recipe entries that resolve. *)
Definition resolvable_entries (db : DB) (cake : Cake.t) : Cake.t :=
  Cake.mk (Cake.name cake) (filter (resolves db) (Cake.ingredients cake)).

(** The order items that are left when the entries that do not resolve and
    the cakes without a recipe are taken away. *)
Definition resolvable_items (db : DB) (items : list OrderItem.t)
  : list OrderItem.t :=
  filter (fun it => has_recipe (OrderItem.cake it))
    (map (fun it => OrderItem.mk (resolvable_entries db (OrderItem.cake it))
                                 (OrderItem.quantity it))
         items).

(** The primary keys of the ingredient table are distinct. *)
Definition unique_ids (db : DB) : Prop :=
  NoDup (map Ingredient.id (ingredients db)).

(** ** Sequences of stock-affecting operations *)

Inductive Op :=
| SaveOrder (instance : Instance.t)
| DeductStock (user : User.t) (pk : Z) (amount : json) (reason now : string)
| ReceiveItems (user : User.t) (pk : Z) (received_items : list ItemData.t)
    (today : string).

Definition step (w : World) (op : Op) : World :=
  match op with
  | SaveOrder instance =>
      snd (deduct_ingredients_on_order_confirmation instance w)
  | DeductStock user pk amount reason now =>
      (snd (deduct_stock user pk amount reason now (fst w)), snd w)
  | ReceiveItems user pk received_items today =>
      (snd (receive_items user pk received_items today (fst w)), snd w)
  end.

Definition run (ops : list Op) (w : World) : World := fold_left step ops w.

(** ** Properties of the ledger *)

(** [new_stock = previous_stock + signed(quantity, kind)]. *)
Definition consistent (m : StockMovement.t) : Prop :=
  StockMovement.new_stock m ==
  StockMovement.previous_stock m
  + signed (StockMovement.movement_type m) (StockMovement.quantity m).

(** The movements of one ingredient, in creation order. *)
Definition history (pk : Z) (db : DB) : list StockMovement.t :=
  filter (fun m => Z.eqb (StockMovement.ingredient m) pk) (movements db).

(** Each movement starts from the balance that the one before it left. *)
Fixpoint chained (h : list StockMovement.t) : Prop :=
  match h with
  | m1 :: (m2 :: _) as rest =>
      StockMovement.new_stock m1 == StockMovement.previous_stock m2
      /\ chained rest
  | _ => True
  end.

(** The newest movement of a history. *)
Fixpoint newest (h : list StockMovement.t) : option StockMovement.t :=
  match h with
  | [] => None
  | m :: rest => match rest with [] => Some m | _ :: _ => newest rest end
  end.

(** The register agrees with the ledger: the newest movement of an
    ingredient, if there is one, left the balance that its row shows. *)
Definition balance_ok (db : DB) : Prop :=
  forall r m,
    In r (ingredients db) ->
    newest (history (Ingredient.id r) db) = Some m ->
    StockMovement.new_stock m == Ingredient.current_stock r.

(** The ledger has no gap and the register agrees with it. *)
Definition ledger_ok (db : DB) : Prop :=
  (forall pk, chained (history pk db)) /\ balance_ok db.

Definition nonnegative (db : DB) : Prop :=
  Forall (fun r => 0 <= Ingredient.current_stock r) (ingredients db).

(** Every purchase-order line points to an ingredient row. *)
Definition lines_resolve (db : DB) : Prop :=
  forall it, In it (purchase_order_items db) ->
    exists ing, get_ingredient (PurchaseOrderItem.ingredient it) db = Some ing.

(** The world that a piece of the [try] block leaves behind. *)
Definition world_of (o : outcome) : World :=
  match o with Done w | Raised w => w end.

(** The database that the receipt loop leaves behind. *)
Definition db_of (r : DB + DB) : DB :=
  match r with inl db | inr db => db end.

(** One atomic change of the stock tables: a balance is rewritten together
    with the movement that records it, or the two tables are left alone. *)
Inductive ledger_step (db db' : DB) : Prop :=
| ledger_move (ing ing' : Ingredient.t) (m : StockMovement.t) :
    In ing (ingredients db) ->
    Ingredient.id ing' = Ingredient.id ing ->
    Ingredient.name ing' = Ingredient.name ing ->
    Ingredient.current_stock ing' = StockMovement.new_stock m ->
    StockMovement.ingredient m = Ingredient.id ing ->
    StockMovement.previous_stock m = Ingredient.current_stock ing ->
    0 < StockMovement.quantity m ->
    consistent m ->
    (0 <= Ingredient.current_stock ing -> 0 <= StockMovement.new_stock m) ->
    ingredients db' = ingredients (save_ingredient ing' db) ->
    movements db' = movements db ++ [m] ->
    ledger_step db db'
| ledger_idle :
    ingredients db' = ingredients db ->
    movements db' = movements db ->
    ledger_step db db'.

Inductive ledger_steps : DB -> DB -> Prop :=
| steps_refl db : ledger_steps db db
| steps_next db1 db2 db3 :
    ledger_steps db1 db2 -> ledger_step db2 db3 -> ledger_steps db1 db3.

(** ** Fixtures used by the closed examples *)

Module Fixture.
Definition flour := Ingredient.mk 1 "Flour" "kg" 10 2 3.
Definition eggs := Ingredient.mk 2 "Eggs" "pcs" 20 5 (1 # 2).
Definition sugar := Ingredient.mk 3 "Sugar" "kg" 0 1 2.
Definition admin := User.mk 7 "admin" true false false.
Definition customer := User.mk 8 "customer" false false false.
Definition po := PurchaseOrder.mk 1 "PO-0001" "sent" None.
Definition line_flour := PurchaseOrderItem.mk 11 1 1 50 0 3.
Definition line_sugar := PurchaseOrderItem.mk 12 1 3 20 0 2.
Definition db := mkDB [customer; admin] [flour; eggs; sugar] [] [po]
                      [line_flour; line_sugar].
(** A cake whose recipe asks for 12 kg of flour. *)
Definition big_cake :=
  Cake.mk "Wedding Cake" [IngredientData.mk "flour" 12 "kg"].
(** A cake whose recipe asks for 2 kg of flour. *)
Definition small_cake :=
  Cake.mk "Vanilla Cake" [IngredientData.mk "Flour" 2 "kg"].
Definition order_big := Order.mk "A17" "confirmed" [OrderItem.mk big_cake 1].
Definition order_small :=
  Order.mk "A18" "confirmed" [OrderItem.mk small_cake 1].
(** The same order once the kitchen has started on it. *)
Definition order_small_preparing :=
  Order.mk "A18" "preparing" [OrderItem.mk small_cake 1].
(** The recipe of the availability scenario: 0.5 kg of flour and 3 eggs
    per serving, against 1.5 kg of flour and 20 eggs. *)
Definition chocolate_cake :=
  Recipe.mk "Chocolate Cake"
    [RecipeIngredient.mk (Ingredient.mk 1 "Flour" "kg" (3 # 2) 2 3) (1 # 2);
     RecipeIngredient.mk eggs 3].
(** An order with a cake without a recipe, and a cake whose recipe names
    an unknown ingredient before the flour. *)
Definition plain_cake := Cake.mk "Plain Cake" [].
Definition cocoa_cake :=
  Cake.mk "Cocoa Cake"
    [IngredientData.mk "Cocoa" 1 "kg"; IngredientData.mk "FLOUR" 2 "kg"].
Definition order_mixed :=
  Order.mk "A19" "preparing"
    [OrderItem.mk plain_cake 1; OrderItem.mk cocoa_cake 1;
     OrderItem.mk small_cake 3].
End Fixture.

(** * Further code of [inventory/views.py]

    The list views below return their rows through [order_by]; the order
    of the rows is not modelled, and what is stated about these views is
    about the rows they hold. *)

(** [current_stock__lte=F('minimum_stock')]. *)
Definition is_low (i : Ingredient.t) : bool :=
  Qle_bool (Ingredient.current_stock i) (Ingredient.minimum_stock i).

(** [IngredientViewSet.low_stock]. *)
Definition low_stock (user : User.t) (db : DB) : list Ingredient.t :=
  filter is_low (ingredient_queryset user db).

(** [Sum(F('current_stock') * F('unit_cost'))], with [or 0] for the empty
    table. *)
Definition inventory_value (l : list Ingredient.t) : Q :=
  fold_right
    (fun i acc => Ingredient.current_stock i * Ingredient.unit_cost i + acc)
    0 l.

Module DashboardStats.
Record t := mk {
  total_ingredients : nat;
  low_stock_count : nat;
  total_value : Q;
  recent_movements : list StockMovement.t
}.
End DashboardStats.

(** [StockMovement.objects.filter(ingredient__in=ingredients)]. *)
Definition movements_of (l : list Ingredient.t) (db : DB)
  : list StockMovement.t :=
  filter (fun m => existsb (fun i => Z.eqb (Ingredient.id i)
                                           (StockMovement.ingredient m)) l)
         (movements db).

(** [IngredientViewSet.dashboard_stats]; [order_by('-created_at')[:10]] is
    the ten newest movements, the newest first. *)
Definition dashboard_stats (user : User.t) (db : DB) : DashboardStats.t :=
  let ingredients := ingredient_queryset user db in
  DashboardStats.mk
    (List.length ingredients)
    (List.length (filter is_low ingredients))
    (inventory_value ingredients)
    (firstn 10 (rev (movements_of ingredients db))).

(** [PurchaseOrderViewSet.pending_orders]. *)
Definition pending_orders (user : User.t) (db : DB) : list PurchaseOrder.t :=
  filter (fun p => (String.eqb (PurchaseOrder.status p) "draft"
                    || String.eqb (PurchaseOrder.status p) "sent"
                    || String.eqb (PurchaseOrder.status p) "confirmed")%bool)
         (purchase_order_queryset user db).

(** ** Measures used in the statements *)

(** The sum of the signed quantities of the movements of one ingredient. *)
Definition net_change (pk : Z) (ms : list StockMovement.t) : Q :=
  fold_right
    (fun m acc =>
       if Z.eqb (StockMovement.ingredient m) pk
       then signed (StockMovement.movement_type m) (StockMovement.quantity m)
            + acc
       else acc)
    0 ms.

(** The same row with a balance that is not larger. *)
Definition lowered (r r' : Ingredient.t) : Prop :=
  Ingredient.id r' = Ingredient.id r
  /\ Ingredient.name r' = Ingredient.name r
  /\ Ingredient.unit r' = Ingredient.unit r
  /\ Ingredient.minimum_stock r' = Ingredient.minimum_stock r
  /\ Ingredient.unit_cost r' = Ingredient.unit_cost r
  /\ Ingredient.current_stock r' <= Ingredient.current_stock r.

(** Between two states of the database, balances have gone down at most
    and nothing else has changed but the ledger. *)
Definition only_lowers (db db' : DB) : Prop :=
  Forall2 lowered (ingredients db) (ingredients db')
  /\ users db' = users db
  /\ purchase_orders db' = purchase_orders db
  /\ purchase_order_items db' = purchase_order_items db.

(** The primary keys of the purchase-order lines are distinct. *)
Definition unique_line_ids (db : DB) : Prop :=
  NoDup (map PurchaseOrderItem.id (purchase_order_items db)).

(** * Recipes for the cakes

    [create_sample_cake_ingredients] of [orders/signals.py] and
    [setup_cake_ingredients.py] write the JSON field [ingredients] of the
    cakes, which the order handler reads.  The cake table is the list of
    its rows; a quantity written [0.5] in the source is the decimal that
    the handler reads back from it.  Letter case is folded on ASCII
    letters only. *)

(** [needle in hay]. *)
Fixpoint contains (needle hay : string) : bool :=
  (String.prefix needle hay
   || match hay with
      | EmptyString => false
      | String _ rest => contains needle rest
      end)%bool.

(** [name__icontains]. *)
Definition icontains (value needle : string) : bool :=
  contains (lower needle) (lower value).

(** The first four entries that the sample recipes share. *)
Definition base_ingredients : list IngredientData.t :=
  [IngredientData.mk "Flour" (1 # 2) "kg";
   IngredientData.mk "Sugar" (3 # 10) "kg";
   IngredientData.mk "Butter" (1 # 5) "kg";
   IngredientData.mk "Eggs" 3 "pcs"].

(** [sample_ingredients] of [create_sample_cake_ingredients], in the order
    of the dictionary. *)
Definition sample_ingredients : list (string * list IngredientData.t) :=
  [("Chocolate Cake"%string,
    base_ingredients ++ [IngredientData.mk "Chocolate Chips" (1 # 10) "kg"]);
   ("Vanilla Cake"%string,
    base_ingredients ++ [IngredientData.mk "Vanilla Extract" 10 "ml"]);
   ("Strawberry Cake"%string,
    base_ingredients ++ [IngredientData.mk "Strawberries" (1 # 5) "kg"])].

(** What [create_sample_cake_ingredients] prints. *)
Inductive SampleLog :=
| UpdatedIngredients (cake : string)
| WarnCakeNotFound (cake_name : string)
| WarnMultipleCakes (cake_name : string).

(** The body of the loop: [Cake.objects.get(name__icontains=cake_name)],
    then the assignment and [cake.save()], which rewrites the one row
    found. *)
Definition set_sample (st : list Cake.t * list SampleLog)
    (entry : string * list IngredientData.t)
  : list Cake.t * list SampleLog :=
  let '(cakes, out) := st in
  let '(cake_name, ingredients) := entry in
  match filter (fun c => icontains (Cake.name c) cake_name) cakes with
  | [] => (cakes, out ++ [WarnCakeNotFound cake_name])
  | [cake] =>
      (map (fun c => if icontains (Cake.name c) cake_name
                     then Cake.mk (Cake.name c) ingredients else c)
           cakes,
       out ++ [UpdatedIngredients (Cake.name cake)])
  | _ :: _ :: _ => (cakes, out ++ [WarnMultipleCakes cake_name])
  end.

Definition create_sample_cake_ingredients (cakes : list Cake.t)
  : list Cake.t * list SampleLog :=
  fold_left set_sample sample_ingredients (cakes, []).

(** The sample name [cake_name] is contained in exactly one of the cake
    names. *)
Definition sole_match (names : list string) (cake_name : string) : bool :=
  Nat.eqb (List.length (filter (fun n => icontains n cake_name) names)) 1.

(** What the loop over [samples] makes of one cake row, given the names
    of all the cakes. *)
Definition assign (names : list string)
    (samples : list (string * list IngredientData.t)) (c : Cake.t) : Cake.t :=
  fold_left
    (fun c e => if (sole_match names (fst e)
                    && icontains (Cake.name c) (fst e))%bool
                then Cake.mk (Cake.name c) (snd e) else c)
    samples c.

(** ** Warnings about skipped lines *)

(** The two warnings that tell that a line of an order was skipped. *)
Definition skip_warning (e : Log) : bool :=
  match e with
  | WarnNoIngredients _ | WarnIngredientNotFound _ => true
  | _ => false
  end.

(** Every cake of the items has a recipe, and every entry of these
    recipes names an ingredient of the database. *)
Definition fully_resolvable (db : DB) (items : list OrderItem.t) : Prop :=
  Forall (fun it =>
            has_recipe (OrderItem.cake it) = true
            /\ Forall (fun d => resolves db d = true)
                      (Cake.ingredients (OrderItem.cake it)))
         items.

(** ** [setup_cake_ingredients.py] *)

(** [sample_ingredients['chocolate']]. *)
Definition setup_chocolate : list IngredientData.t :=
  [IngredientData.mk "Flour" (1 # 2) "kg";
   IngredientData.mk "Sugar" (3 # 10) "kg";
   IngredientData.mk "Butter" (1 # 5) "kg";
   IngredientData.mk "Eggs" 3 "pcs";
   IngredientData.mk "Chocolate Chips" (1 # 10) "kg";
   IngredientData.mk "Baking Powder" 10 "g"].

(** [sample_ingredients] of [setup_cake_ingredients], in the order of the
    dictionary. *)
Definition setup_ingredients : list (string * list IngredientData.t) :=
  [("chocolate"%string, setup_chocolate);
   ("vanilla"%string,
    [IngredientData.mk "Flour" (1 # 2) "kg";
     IngredientData.mk "Sugar" (3 # 10) "kg";
     IngredientData.mk "Butter" (1 # 5) "kg";
     IngredientData.mk "Eggs" 3 "pcs";
     IngredientData.mk "Vanilla Extract" 10 "ml";
     IngredientData.mk "Baking Powder" 10 "g"]);
   ("strawberry"%string,
    [IngredientData.mk "Flour" (1 # 2) "kg";
     IngredientData.mk "Sugar" (3 # 10) "kg";
     IngredientData.mk "Butter" (1 # 5) "kg";
     IngredientData.mk "Eggs" 3 "pcs";
     IngredientData.mk "Strawberries" (1 # 5) "kg";
     IngredientData.mk "Baking Powder" 10 "g"]);
   ("fruit"%string,
    [IngredientData.mk "Flour" (1 # 2) "kg";
     IngredientData.mk "Sugar" (3 # 10) "kg";
     IngredientData.mk "Butter" (1 # 5) "kg";
     IngredientData.mk "Eggs" 3 "pcs";
     IngredientData.mk "Mixed Fruits" (3 # 10) "kg";
     IngredientData.mk "Baking Powder" 10 "g"]);
   ("mousse"%string,
    [IngredientData.mk "Flour" (3 # 10) "kg";
     IngredientData.mk "Sugar" (1 # 5) "kg";
     IngredientData.mk "Butter" (1 # 10) "kg";
     IngredientData.mk "Eggs" 2 "pcs";
     IngredientData.mk "Cream" (3 # 10) "l";
     IngredientData.mk "Gelatin" 5 "g"]);
   ("cup"%string,
    [IngredientData.mk "Flour" (1 # 5) "kg";
     IngredientData.mk "Sugar" (3 # 20) "kg";
     IngredientData.mk "Butter" (1 # 10) "kg";
     IngredientData.mk "Eggs" 2 "pcs";
     IngredientData.mk "Baking Powder" 5 "g"])].

(** The recipe chosen for a cake: that of the first key that its
    lower-cased name contains, the chocolate one when there is none. *)
Definition ingredients_to_use (cake_name : string) : list IngredientData.t :=
  let cake_name_lower := lower cake_name in
  match find (fun e => contains (fst e) cake_name_lower) setup_ingredients with
  | Some (_, (_ :: _) as ingredients) => ingredients
  | _ => setup_chocolate
  end.

(** What [setup_cake_ingredients] prints. *)
Inductive SetupLog :=
| SettingUp
| FoundCakes (n : nat)
| UpdatedCake (cake : string) (n : nat)
| UpdatedCount (n : nat)
| Verifying
| MissingIngredients (names : list string)
| AllIngredientsExist.

(** The loop over the cakes, with its counter. *)
Fixpoint setup_loop (cakes : list Cake.t) (updated_count : nat)
    (out : list SetupLog) : list Cake.t * nat * list SetupLog :=
  match cakes with
  | [] => ([], updated_count, out)
  | cake :: rest =>
      let ingredients_to_use := ingredients_to_use (Cake.name cake) in
      let '(rest', n, out') :=
        setup_loop rest (S updated_count)
          (out ++ [UpdatedCake (Cake.name cake)
                     (List.length ingredients_to_use)]) in
      (Cake.mk (Cake.name cake) ingredients_to_use :: rest', n, out')
  end.

(** The set [all_ingredient_names]; the order in which Python walks the
    set is not fixed, the one here is that of first occurrence. *)
Definition all_ingredient_names : list string :=
  nodup string_dec
    (flat_map (fun e => map IngredientData.name (snd e)) setup_ingredients).

(** The names for which [Ingredient.objects.filter(name__iexact=...)] has
    no row. *)
Definition missing_ingredients (db : DB) : list string :=
  filter (fun n => match ingredients_named n db with
                   | [] => true
                   | _ :: _ => false
                   end)
         all_ingredient_names.

Definition setup_cake_ingredients (cakes : list Cake.t) (db : DB)
  : list Cake.t * list SetupLog :=
  let '(cakes', updated_count, out) :=
    setup_loop cakes 0 [SettingUp; FoundCakes (List.length cakes)] in
  (cakes',
   out ++ [UpdatedCount updated_count; Verifying]
   ++ [match missing_ingredients db with
       | [] => AllIngredientsExist
       | _ :: _ => MissingIngredients (missing_ingredients db)
       end]).

(** ** Entries of a receipt and announcements of the handler *)

(** The entry of a receipt designates a line of the purchase order. *)
Definition known_line (db : DB) (po : Z) (item_data : ItemData.t) : bool :=
  match get_po_item (ItemData.item_id item_data) po db with
  | Some _ => true
  | None => false
  end.

(** The quantities that the handler has announced as deducted. *)
Definition deducted_quantities (out : list Log) : list Q :=
  flat_map (fun e => match e with
                     | Deducted qty _ _ _ => [qty]
                     | _ => []
                     end) out.

(** ** A database with three purchase orders, one of them without lines *)

Module Scenario.
Definition po2 := PurchaseOrder.mk 2 "PO-0002" "draft" None.
Definition empty_po := PurchaseOrder.mk 3 "PO-0003" "sent" None.
Definition line_eggs := PurchaseOrderItem.mk 21 2 2 100 0 (1 # 2).
Definition db :=
  mkDB (users Fixture.db) (ingredients Fixture.db) []
       [Fixture.po; po2; empty_po]
       [Fixture.line_flour; Fixture.line_sugar; line_eggs].
End Scenario.

(** ** A pantry that holds every ingredient of the recipes set up *)

Module Pantry.
Definition stocked (pk : Z) (name unit : string) : Ingredient.t :=
  Ingredient.mk pk name unit 100 10 1.
Definition db :=
  mkDB [Fixture.admin]
       [stocked 1 "flour" "kg"; stocked 2 "sugar" "kg";
        stocked 3 "butter" "kg"; stocked 4 "eggs" "pcs";
        stocked 5 "chocolate chips" "kg"; stocked 6 "baking powder" "g";
        stocked 7 "vanilla extract" "ml"; stocked 8 "strawberries" "kg";
        stocked 9 "mixed fruits" "kg"; stocked 10 "cream" "l";
        stocked 11 "gelatin" "g"]
       [] [] [].
Definition cakes :=
  [Cake.mk "Dark Chocolate Cake" []; Cake.mk "Vanilla Cupcake" [];
   Cake.mk "Red Velvet" []].
(** An order for two of the cakes as the set-up leaves them. *)
Definition order :=
  Order.mk "B01" "confirmed"
    [OrderItem.mk (Cake.mk "Vanilla Cupcake"
                     (ingredients_to_use "Vanilla Cupcake")) 2;
     OrderItem.mk (Cake.mk "Red Velvet" (ingredients_to_use "Red Velvet")) 1].
End Pantry.

(** * Proofs *)

(** ** Decimals *)

Lemma ltb_lt (a b : Q) : Dec.ltb a b = true <-> a < b.
Proof.
  unfold Dec.ltb. rewrite negb_true_iff.
  split; intro H.
  - apply Qnot_le_lt. intro L. apply Qle_bool_iff in L. congruence.
  - destruct (Qle_bool b a) eqn:E; [|reflexivity].
    apply Qle_bool_iff in E. exfalso. apply (Qlt_not_le _ _ H E).
Qed.

Lemma ltb_ge (a b : Q) : Dec.ltb a b = false <-> b <= a.
Proof.
  unfold Dec.ltb. rewrite negb_false_iff. apply Qle_bool_iff.
Qed.

Lemma max_zero_nonneg (x : Q) : 0 <= Dec.max 0 x.
Proof.
  unfold Dec.max. destruct (Dec.ltb 0 x) eqn:E.
  - apply ltb_lt in E. lra.
  - lra.
Qed.

Lemma max_zero_of_nonneg (x : Q) : 0 <= x -> Dec.max 0 x == x.
Proof.
  intro H. unfold Dec.max. destruct (Dec.ltb 0 x) eqn:E.
  - reflexivity.
  - apply ltb_ge in E. lra.
Qed.

(** ** The ledger's [append] *)

Lemma create_Some (m : StockMovement.t) (db : DB) :
  0 < StockMovement.quantity m -> consistent m ->
  StockMovement_create m db = Some (with_movements (movements db ++ [m]) db).
Proof.
  intros Hq Hc. unfold StockMovement_create.
  apply ltb_lt in Hq. rewrite Hq. simpl.
  apply Qeq_bool_iff in Hc. rewrite Hc. reflexivity.
Qed.

Lemma create_inv (m : StockMovement.t) (db db' : DB) :
  StockMovement_create m db = Some db' ->
  db' = with_movements (movements db ++ [m]) db
  /\ 0 < StockMovement.quantity m /\ consistent m.
Proof.
  unfold StockMovement_create.
  destruct (Dec.ltb 0 (StockMovement.quantity m)) eqn:Hq; simpl; [|discriminate].
  destruct (Qeq_bool _ _) eqn:Hc; [|discriminate].
  intro H. injection H as <-. split; [reflexivity|]. split.
  - now apply ltb_lt.
  - now apply Qeq_bool_iff.
Qed.

(** ** Saving an ingredient row *)

Lemma get_ingredient_In (pk : Z) (db : DB) (ing : Ingredient.t) :
  get_ingredient pk db = Some ing ->
  In ing (ingredients db) /\ Ingredient.id ing = pk.
Proof.
  unfold get_ingredient. intro H. apply find_some in H.
  destruct H as [H1 H2]. apply Z.eqb_eq in H2. auto.
Qed.

Lemma get_saved (i : Ingredient.t) (db : DB) :
  (exists r, In r (ingredients db) /\ Ingredient.id r = Ingredient.id i) ->
  get_ingredient (Ingredient.id i) (save_ingredient i db) = Some i.
Proof.
  unfold get_ingredient, save_ingredient. simpl.
  induction (ingredients db) as [|x l IH]; intros [r [Hin Hid]].
  - destruct Hin.
  - simpl. destruct (Z.eqb (Ingredient.id x) (Ingredient.id i)) eqn:E.
    + rewrite Z.eqb_refl. reflexivity.
    + rewrite E. apply IH. destruct Hin as [->|Hin].
      * apply Z.eqb_neq in E. congruence.
      * eauto.
Qed.

(** ** The manual endpoint *)

Lemma manual_movement_consistent (p d c : Q) (pk u : Z) (r n : string) :
  consistent (StockMovement.mk pk MoveOut d p (p - d) c (d * c) r n u).
Proof. unfold consistent. simpl. lra. Qed.

(** A request that is not answered with 200 has changed nothing. *)
Lemma deduct_stock_rejected user pk amount reason now db :
  is_200 (fst (deduct_stock user pk amount reason now db)) = false ->
  snd (deduct_stock user pk amount reason now db) = db.
Proof.
  unfold deduct_stock.
  destruct (ingredient_queryset user db) as [|q0 qs]; [reflexivity|].
  destruct (find _ (q0 :: qs)) as [ingredient|]; [|reflexivity].
  destruct (negb (User.is_admin user || _ || _)); [reflexivity|].
  destruct (negb (truthy amount)); [reflexivity|].
  destruct (float amount) as [a|]; [|reflexivity].
  destruct (Qle_bool a 0) eqn:Ha; [reflexivity|].
  destruct (Dec.ltb (Ingredient.current_stock ingredient) a); [reflexivity|].
  rewrite create_Some.
  - simpl. discriminate.
  - simpl. apply Qnot_le_lt. intro L. apply Qle_bool_iff in L. congruence.
  - apply manual_movement_consistent.
Qed.

(** An amount above the balance is answered with 400 whoever asks. *)
Lemma deduct_stock_above_balance user pk amount reason now db ing a :
  get_ingredient pk db = Some ing ->
  float amount = Some a ->
  Ingredient.current_stock ing < a ->
  is_200 (fst (deduct_stock user pk amount reason now db)) = false.
Proof.
  intros Hg Hf Hlt. unfold deduct_stock, ingredient_queryset.
  destruct (User.is_admin user || User.is_inventory_manager user
            || User.is_staff_member user)%bool; [|reflexivity].
  destruct (ingredients db) as [|q0 qs] eqn:E; [reflexivity|].
  unfold get_ingredient in Hg. rewrite E in Hg. rewrite Hg.
  simpl negb. cbv iota.
  destruct (negb (truthy amount)); [reflexivity|].
  rewrite Hf.
  destruct (Qle_bool a 0); [reflexivity|].
  apply ltb_lt in Hlt. rewrite Hlt. reflexivity.
Qed.

Lemma deduct_stock_falsy user pk amount reason now db :
  truthy amount = false ->
  is_200 (fst (deduct_stock user pk amount reason now db)) = false.
Proof.
  intro Ht. unfold deduct_stock.
  destruct (ingredient_queryset user db); [reflexivity|].
  destruct (find _ _); [|reflexivity].
  destruct (negb (_ || _ || _)); [reflexivity|].
  rewrite Ht. reflexivity.
Qed.

Lemma deduct_stock_not_numeric user pk amount reason now db :
  float amount = None ->
  is_200 (fst (deduct_stock user pk amount reason now db)) = false.
Proof.
  intro Hf. unfold deduct_stock.
  destruct (ingredient_queryset user db); [reflexivity|].
  destruct (find _ _); [|reflexivity].
  destruct (negb (_ || _ || _)); [reflexivity|].
  destruct (negb (truthy amount)); [reflexivity|].
  rewrite Hf. reflexivity.
Qed.

Lemma deduct_stock_not_positive user pk amount reason now db a :
  float amount = Some a -> a <= 0 ->
  is_200 (fst (deduct_stock user pk amount reason now db)) = false.
Proof.
  intros Hf Ha. unfold deduct_stock.
  destruct (ingredient_queryset user db); [reflexivity|].
  destruct (find _ _); [|reflexivity].
  destruct (negb (_ || _ || _)); [reflexivity|].
  destruct (negb (truthy amount)); [reflexivity|].
  rewrite Hf. apply Qle_bool_iff in Ha. rewrite Ha. reflexivity.
Qed.

(** C10.  A request that the manual deduct-stock endpoint rejects leaves
    the database as it was: no balance is changed and no movement is
    appended.  A missing, zero or empty amount, an amount that is not a
    number, a negative amount and an amount above the ingredient's balance
    are all rejected. *)
Theorem deduct_stock_rejection_atomic user pk amount reason now db :
  let r := deduct_stock user pk amount reason now db in
  (is_200 (fst r) = false -> snd r = db)
  /\ (truthy amount = false -> is_200 (fst r) = false)
  /\ (float amount = None -> is_200 (fst r) = false)
  /\ (forall a, float amount = Some a -> a <= 0 -> is_200 (fst r) = false)
  /\ (forall a ing,
        float amount = Some a -> get_ingredient pk db = Some ing ->
        Ingredient.current_stock ing < a -> is_200 (fst r) = false).
Proof.
  cbv zeta. repeat split.
  - apply deduct_stock_rejected.
  - apply deduct_stock_falsy.
  - apply deduct_stock_not_numeric.
  - intros a. apply deduct_stock_not_positive.
  - intros a ing Hf Hg Hlt. eapply deduct_stock_above_balance; eauto.
Qed.

Lemma deduct_stock_rejection_atomic_witness :
  snd (deduct_stock Fixture.admin 1 (JNum 12) "spill" "20260101120000"
         Fixture.db) = Fixture.db
  /\ is_200 (fst (deduct_stock Fixture.admin 1 (JStr "abc") "spill"
                    "20260101120000" Fixture.db)) = false.
Proof.
  split.
  - apply (proj1 (deduct_stock_rejection_atomic Fixture.admin 1 (JNum 12)
                    "spill" "20260101120000" Fixture.db)).
    reflexivity.
  - apply (proj1 (proj2 (proj2 (deduct_stock_rejection_atomic Fixture.admin 1
                    (JStr "abc") "spill" "20260101120000" Fixture.db)))).
    reflexivity.
Defined.

(** ** The order-driven deduction *)

Lemma Qle_bool_false (a b : Q) : b < a -> Qle_bool a b = false.
Proof.
  intro H. destruct (Qle_bool a b) eqn:E; [|reflexivity].
  apply Qle_bool_iff in E. lra.
Qed.

Lemma ingredients_named_In (n : string) (db : DB) (ing : Ingredient.t) l :
  ingredients_named n db = ing :: l -> In ing (ingredients db).
Proof.
  intro H. assert (Hin : In ing (ingredients_named n db)) by (rewrite H; now left).
  unfold ingredients_named in Hin. apply filter_In in Hin. tauto.
Qed.

(** C1 (amended).  When an order-driven deduction asks for more than the
    ingredient's balance, [deduct_ingredients_for_cake] clamps it to the
    balance: the balance becomes zero, a movement of the amount applied is
    written, the warning printed carries the quantity required and the
    quantity available, and the loop goes on.  The manual endpoint does not
    clamp: it rejects the same amount and changes nothing. *)
Theorem order_deduction_clamps_manual_rejects
    cake_name quantity order_number system_user d db out ing others :
  IngredientData.name d <> ""%string ->
  0 < IngredientData.quantity d ->
  ingredients_named (IngredientData.name d) db = ing :: others ->
  get_ingredient (Ingredient.id ing) db = Some ing ->
  0 <= Ingredient.current_stock ing ->
  Ingredient.current_stock ing < IngredientData.quantity d * inject_Z quantity ->
  let requested := IngredientData.quantity d * inject_Z quantity in
  let stock := Ingredient.current_stock ing in
  (exists db' out',
      deduct_entry cake_name quantity order_number system_user d (db, out)
      = Done (db', out')
      /\ (exists ing',
             get_ingredient (Ingredient.id ing) db' = Some ing'
             /\ Ingredient.current_stock ing' == 0)
      /\ In (WarnInsufficientStock (IngredientData.name d) requested stock) out'
      /\ (0 < stock ->
          exists m,
            movements db' = movements db ++ [m]
            /\ StockMovement.ingredient m = Ingredient.id ing
            /\ StockMovement.movement_type m = MoveOut
            /\ StockMovement.quantity m = stock
            /\ StockMovement.previous_stock m = stock
            /\ StockMovement.new_stock m = 0
            /\ StockMovement.reference m = ("ORDER-" ++ order_number)%string
            /\ In (Deducted stock (IngredientData.unit d)
                     (IngredientData.name d) order_number) out')
      /\ (stock == 0 -> db' = db))
  /\ (forall user reason now,
        let r := deduct_stock user (Ingredient.id ing) (JNum requested)
                   reason now db in
        is_200 (fst r) = false /\ snd r = db).
Proof.
  intros Hname Hq Hnamed Hget Hnonneg Hshort requested stock.
  split.
  - unfold deduct_entry.
    apply String.eqb_neq in Hname. rewrite Hname.
    rewrite (Qle_bool_false _ _ Hq). simpl orb. cbv iota.
    rewrite Hnamed.
    pose proof Hshort as Hs. apply ltb_lt in Hs. rewrite Hs.
    destruct (Dec.ltb 0 (Ingredient.current_stock ing)) eqn:Hpos.
    + apply ltb_lt in Hpos.
      assert (Hmax : Dec.max 0 (Ingredient.current_stock ing
                                - Ingredient.current_stock ing) = 0).
      { unfold Dec.max.
        destruct (Dec.ltb 0 _) eqn:E; [|reflexivity].
        apply ltb_lt in E. lra. }
      rewrite Hmax.
      rewrite create_Some.
      * eexists; eexists. split; [reflexivity|]. split; [|split; [|split]].
        -- exists (Ingredient.set_current_stock 0 ing). split.
           ++ simpl.
              change (Ingredient.id ing)
                with (Ingredient.id (Ingredient.set_current_stock 0 ing)) at 1.
              apply get_saved. exists ing. split; [|reflexivity].
              eapply ingredients_named_In; eauto.
           ++ reflexivity.
        -- apply in_or_app. left. apply in_or_app. right. now left.
        -- intros _. eexists. split; [reflexivity|].
           simpl. repeat split. apply in_or_app. right. now left.
        -- intro Hz. fold stock in Hpos. lra.
      * simpl. exact Hpos.
      * unfold consistent. simpl. lra.
    + apply ltb_ge in Hpos.
      eexists; eexists. split; [reflexivity|]. split; [|split; [|split]].
      * exists ing. split; [exact Hget|]. lra.
      * apply in_or_app. right. now left.
      * intro Hlt. fold stock in Hpos. lra.
      * reflexivity.
  - intros user reason now r. subst r.
    assert (H200 : is_200 (fst (deduct_stock user (Ingredient.id ing)
                                  (JNum requested) reason now db)) = false).
    { eapply deduct_stock_above_balance; eauto. reflexivity. }
    split; [exact H200|]. now apply deduct_stock_rejected.
Qed.

Lemma order_deduction_clamps_manual_rejects_witness :
  deduct_entry "Wedding Cake" 1 "A17" Fixture.admin
    (IngredientData.mk "flour" 12 "kg") (Fixture.db, [])
  = Done
      (mkDB (users Fixture.db)
         [Ingredient.set_current_stock 0 Fixture.flour; Fixture.eggs;
          Fixture.sugar]
         [StockMovement.mk 1 MoveOut 10 10 0 3 (10 * 3) "ORDER-A17"
            "Automatic deduction for order #A17 - Wedding Cake (x1)" 7]
         (purchase_orders Fixture.db) (purchase_order_items Fixture.db),
       [WarnInsufficientStock "flour" (12 * inject_Z 1) 10;
        Deducted 10 "kg" "flour" "A17"])
  /\ 12 * inject_Z 1 - 10 == 2.
Proof.
  split; [|reflexivity].
  destruct (order_deduction_clamps_manual_rejects "Wedding Cake" 1 "A17"
              Fixture.admin (IngredientData.mk "flour" 12 "kg") Fixture.db []
              Fixture.flour [])
    as [[db' [out' [Hrun _]]] _].
  - discriminate.
  - reflexivity.
  - reflexivity.
  - reflexivity.
  - discriminate.
  - reflexivity.
  - rewrite Hrun. vm_compute in Hrun. injection Hrun as <- <-. reflexivity.
Defined.

(** The manual endpoint, asked for 12 of a balance of 10, does not clamp:
    it answers 400, the balance stays at 10 and no movement is written. *)
Lemma manual_deduct_12_of_10_is_rejected :
  let r := deduct_stock Fixture.admin 1 (JNum 12) "spill" "20260101120000"
             Fixture.db in
  fst r = HTTP_400_BAD_REQUEST (InsufficientStock 10 12)
  /\ option_map Ingredient.current_stock (get_ingredient 1 (snd r)) = Some 10
  /\ movements (snd r) = [].
Proof. cbv zeta. repeat split. Qed.

(** ** The processed marker *)

(** Saving the same object again deducts nothing more. *)
Lemma same_object_is_processed_once (instance : Instance.t) (w : World) :
  let r := deduct_ingredients_on_order_confirmation instance w in
  fst (snd (deduct_ingredients_on_order_confirmation (fst r) (snd r)))
  = fst (snd r).
Proof.
  cbv zeta. unfold deduct_ingredients_on_order_confirmation.
  destruct (qualifying (Order.order_status (Instance.row instance))) eqn:Hq.
  - destruct (Instance._ingredients_deducted instance) eqn:Hd.
    + simpl. rewrite Hq, Hd. reflexivity.
    + destruct (find_system_user (fst w)) eqn:Hu.
      * simpl. rewrite Hq. reflexivity.
      * simpl. rewrite Hq, Hd, Hu. reflexivity.
  - simpl. rewrite Hq. reflexivity.
Qed.

(** C2.  The marker [_ingredients_deducted] lives on the Python object and
    is not stored: an order in a qualifying status that is loaded again and
    saved again is deducted again.  Order A18 (one cake, 2 kg of flour)
    saved twice in status 'confirmed', or saved in status 'confirmed' and
    later in status 'preparing', leaves two 'out' movements and takes the
    balance from 10 to 6, where one set of movements and a balance of 8
    were due. *)
Theorem reloaded_order_is_deducted_again :
  let first := deduct_ingredients_on_order_confirmation
                 (Instance.load Fixture.order_small) (Fixture.db, []) in
  let second := deduct_ingredients_on_order_confirmation
                  (Instance.load Fixture.order_small) (snd first) in
  let later := deduct_ingredients_on_order_confirmation
                 (Instance.load Fixture.order_small_preparing) (snd first) in
  map StockMovement.reference (movements (fst (snd first)))
  = ["ORDER-A18"%string]
  /\ option_map Ingredient.current_stock
       (get_ingredient 1 (fst (snd first))) = Some 8
  /\ map StockMovement.reference (movements (fst (snd second)))
     = ["ORDER-A18"%string; "ORDER-A18"%string]
  /\ map StockMovement.quantity (movements (fst (snd second))) = [2; 2]
  /\ option_map Ingredient.current_stock
       (get_ingredient 1 (fst (snd second))) = Some 6
  /\ map StockMovement.reference (movements (fst (snd later)))
     = ["ORDER-A18"%string; "ORDER-A18"%string]
  /\ option_map Ingredient.current_stock
       (get_ingredient 1 (fst (snd later))) = Some 6.
Proof. vm_compute. repeat split. Qed.

(** What one pass of the loop over [cake_ingredients] does to the
    database: nothing, or one clamped deduction with its movement.  It
    never raises. *)
Lemma deduct_entry_effect cake_name quantity order_number system_user d db out :
  exists out',
    deduct_entry cake_name quantity order_number system_user d (db, out)
    = Done (db, out')
    \/ exists ing others t notes,
        ingredients_named (IngredientData.name d) db = ing :: others
        /\ 0 < t /\ t <= Ingredient.current_stock ing
        /\ deduct_entry cake_name quantity order_number system_user d (db, out)
           = Done
               (with_movements
                  (movements db
                   ++ [StockMovement.mk (Ingredient.id ing) MoveOut t
                         (Ingredient.current_stock ing)
                         (Dec.max 0 (Ingredient.current_stock ing - t))
                         (Ingredient.unit_cost ing)
                         (t * Ingredient.unit_cost ing)
                         ("ORDER-" ++ order_number) notes
                         (User.id system_user)])
                  (save_ingredient
                     (Ingredient.set_current_stock
                        (Dec.max 0 (Ingredient.current_stock ing - t)) ing)
                     db),
                out').
Proof.
  unfold deduct_entry.
  destruct (String.eqb _ _ || Qle_bool _ _)%bool; [eexists; left; reflexivity|].
  destruct (ingredients_named (IngredientData.name d) db) as [|ing others] eqn:Hn;
    [eexists; left; reflexivity|].
  set (total := IngredientData.quantity d * inject_Z quantity).
  set (stock := Ingredient.current_stock ing).
  set (t := if Dec.ltb stock total then stock else total).
  assert (Ht : t <= stock).
  { unfold t. destruct (Dec.ltb stock total) eqn:E; [lra|].
    now apply ltb_ge in E. }
  destruct (Dec.ltb 0 t) eqn:Hpos; [|eexists; left; reflexivity].
  apply ltb_lt in Hpos.
  rewrite create_Some.
  - eexists. right. exists ing, others, t. eexists.
    split; [reflexivity|]. split; [exact Hpos|]. split; [exact Ht|].
    reflexivity.
  - exact Hpos.
  - unfold consistent. simpl. rewrite max_zero_of_nonneg; lra.
Qed.

(** ** Every operation is a sequence of ledger steps *)

Lemma steps_trans db1 db2 db3 :
  ledger_steps db1 db2 -> ledger_steps db2 db3 -> ledger_steps db1 db3.
Proof.
  intros H12 H23. induction H23 as [|a b c Hab IH Hbc].
  - exact H12.
  - eapply steps_next; [apply IH; exact H12 | exact Hbc].
Qed.

Lemma steps_one db db' : ledger_step db db' -> ledger_steps db db'.
Proof. intro H. eapply steps_next; [apply steps_refl | exact H]. Qed.

Lemma deduct_entry_steps cake_name quantity order_number system_user d w :
  ledger_steps (fst w)
    (fst (world_of (deduct_entry cake_name quantity order_number system_user
                      d w))).
Proof.
  destruct w as [db out].
  destruct (deduct_entry_effect cake_name quantity order_number system_user
              d db out) as [out' [H | H]].
  - rewrite H. apply steps_refl.
  - destruct H as (ing & others & t & notes & Hn & Hpos & Hle & H).
    rewrite H. apply steps_one. simpl.
    eapply (ledger_move _ _ ing); cycle 9.
    1, 2: reflexivity.
    all: try reflexivity.
    + eapply ingredients_named_In; eauto.
    + exact Hpos.
    + unfold consistent. simpl. rewrite max_zero_of_nonneg; lra.
    + intros _. simpl. apply max_zero_nonneg.
Qed.

Lemma deduct_entries_steps cake_name quantity order_number system_user l w :
  ledger_steps (fst w)
    (fst (world_of (deduct_entries cake_name quantity order_number system_user
                      l w))).
Proof.
  revert w. induction l as [|d l IH]; intro w; simpl.
  - apply steps_refl.
  - pose proof (deduct_entry_steps cake_name quantity order_number
                  system_user d w) as H1.
    destruct (deduct_entry cake_name quantity order_number system_user d w)
      as [w'|w']; simpl in *.
    + eapply steps_trans; [exact H1 | apply IH].
    + exact H1.
Qed.

Lemma deduct_ingredients_for_cake_steps cake quantity order system_user w :
  ledger_steps (fst w)
    (fst (deduct_ingredients_for_cake cake quantity order system_user w)).
Proof.
  unfold deduct_ingredients_for_cake.
  destruct (Cake.ingredients cake) as [|d l] eqn:E.
  - simpl. apply steps_refl.
  - pose proof (deduct_entries_steps (Cake.name cake) quantity
                  (Order.order_number order) system_user (d :: l) w) as H.
    destruct (deduct_entries _ _ _ _ (d :: l) w) as [w'|[db' out']];
      simpl in *; exact H.
Qed.

Lemma deduct_order_items_steps order system_user items w :
  ledger_steps (fst w) (fst (deduct_order_items order system_user items w)).
Proof.
  revert w. induction items as [|it items IH]; intro w; simpl.
  - apply steps_refl.
  - eapply steps_trans; [|apply IH].
    apply deduct_ingredients_for_cake_steps.
Qed.

Lemma order_confirmation_steps instance w :
  ledger_steps (fst w)
    (fst (snd (deduct_ingredients_on_order_confirmation instance w))).
Proof.
  unfold deduct_ingredients_on_order_confirmation.
  destruct (qualifying _); [|apply steps_refl].
  destruct (Instance._ingredients_deducted instance); [apply steps_refl|].
  destruct (find_system_user (fst w)); [|apply steps_refl].
  simpl. apply deduct_order_items_steps.
Qed.

Lemma deduct_stock_steps user pk amount reason now db :
  ledger_steps db (snd (deduct_stock user pk amount reason now db)).
Proof.
  unfold deduct_stock.
  destruct (ingredient_queryset user db) as [|q0 qs] eqn:Eq; [apply steps_refl|].
  destruct (find _ (q0 :: qs)) as [ingredient|] eqn:Ef; [|apply steps_refl].
  destruct (negb (User.is_admin user || _ || _)); [apply steps_refl|].
  destruct (negb (truthy amount)); [apply steps_refl|].
  destruct (float amount) as [a|]; [|apply steps_refl].
  destruct (Qle_bool a 0) eqn:Ha; [apply steps_refl|].
  destruct (Dec.ltb (Ingredient.current_stock ingredient) a) eqn:Hs;
    [apply steps_refl|].
  assert (Hpos : 0 < a).
  { apply Qnot_le_lt. intro L. apply Qle_bool_iff in L. congruence. }
  apply ltb_ge in Hs.
  rewrite create_Some; [|exact Hpos|apply manual_movement_consistent].
  simpl. apply steps_one.
  eapply (ledger_move _ _ ingredient); cycle 9.
  1, 2: reflexivity.
  all: try reflexivity.
  - apply find_some in Ef. destruct Ef as [Hin _].
    unfold ingredient_queryset in Eq.
    destruct (_ || _ || _)%bool; [|discriminate]. rewrite Eq. exact Hin.
  - exact Hpos.
  - intros _. simpl. lra.
Qed.

(** The register's [add] on a resolved ingredient and a positive
    quantity. *)
Lemma create_in_effect pk qty cost reference notes actor db ing :
  get_ingredient pk db = Some ing -> 0 < qty ->
  StockMovement_create_in pk qty cost reference notes actor db
  = Some
      (with_movements
         (movements db
          ++ [StockMovement.mk pk MoveIn qty (Ingredient.current_stock ing)
                (Ingredient.current_stock ing + qty) cost (qty * cost)
                reference notes actor])
         (save_ingredient
            (Ingredient.set_unit_cost cost
               (Ingredient.set_current_stock
                  (Ingredient.current_stock ing + qty) ing))
            db)).
Proof.
  intros Hg Hq. unfold StockMovement_create_in. rewrite Hg.
  rewrite create_Some; [reflexivity | exact Hq |].
  unfold consistent. simpl. reflexivity.
Qed.

Lemma create_in_steps pk qty cost reference notes actor db db' :
  StockMovement_create_in pk qty cost reference notes actor db = Some db' ->
  0 < qty -> ledger_steps db db'.
Proof.
  intros H Hq.
  destruct (get_ingredient pk db) as [ing|] eqn:Hg.
  - rewrite (create_in_effect _ _ _ _ _ _ _ _ Hg Hq) in H.
    injection H as <-.
    apply get_ingredient_In in Hg. destruct Hg as [Hin Hid].
    apply steps_one.
    eapply (ledger_move _ _ ing); cycle 9.
    1, 2: reflexivity.
    all: try reflexivity.
    + exact Hin.
    + simpl. congruence.
    + exact Hq.
    + simpl. lra.
  - unfold StockMovement_create_in in H. rewrite Hg in H. discriminate.
Qed.

Lemma receive_item_steps user purchase_order item_data db :
  ledger_steps db (db_of (receive_item user purchase_order item_data db)).
Proof.
  unfold receive_item.
  destruct (get_po_item _ _ db) as [po_item|]; [|apply steps_refl].
  set (db1 := save_po_item _ db).
  assert (H1 : ledger_steps db db1).
  { apply steps_one. apply ledger_idle; reflexivity. }
  destruct (Dec.ltb 0 (ItemData.received_quantity item_data)) eqn:Hq;
    [|exact H1].
  apply ltb_lt in Hq.
  destruct (StockMovement_create_in _ _ _ _ _ _ db1) as [db2|] eqn:Hc;
    [|exact H1].
  simpl. eapply steps_trans; [exact H1|].
  eapply create_in_steps; eauto.
Qed.

Lemma receive_loop_steps user purchase_order received_items db :
  ledger_steps db (db_of (receive_loop user purchase_order received_items db)).
Proof.
  revert db. induction received_items as [|x l IH]; intro db; simpl.
  - apply steps_refl.
  - pose proof (receive_item_steps user purchase_order x db) as H.
    destruct (receive_item user purchase_order x db) as [db'|db']; simpl in *.
    + eapply steps_trans; [exact H | apply IH].
    + exact H.
Qed.

Lemma receive_items_steps user pk received_items today db :
  ledger_steps db (snd (receive_items user pk received_items today db)).
Proof.
  unfold receive_items.
  destruct (find _ _) as [po|]; [|apply steps_refl].
  pose proof (receive_loop_steps user po received_items db) as H.
  destruct (receive_loop user po received_items db) as [db'|db']; simpl in *.
  - destruct (all_received _ db'); simpl; [|exact H].
    eapply steps_next; [exact H|]. apply ledger_idle; reflexivity.
  - exact H.
Qed.

Lemma step_steps w op : ledger_steps (fst w) (fst (step w op)).
Proof.
  destruct op; simpl.
  - apply order_confirmation_steps.
  - apply deduct_stock_steps.
  - apply receive_items_steps.
Qed.

Lemma run_steps ops w : ledger_steps (fst w) (fst (run ops w)).
Proof.
  unfold run. revert w. induction ops as [|op ops IH]; intro w; simpl.
  - apply steps_refl.
  - eapply steps_trans; [apply step_steps | apply IH].
Qed.

(** ** Invariants of a ledger step *)

Lemma save_ingredient_Forall (P : Ingredient.t -> Prop) i db :
  Forall P (ingredients db) -> P i ->
  Forall P (ingredients (save_ingredient i db)).
Proof.
  intros H Hi. simpl. apply Forall_forall. intros x Hx.
  apply in_map_iff in Hx. destruct Hx as [r [Hr Hin]].
  destruct (Z.eqb _ _); subst x; [exact Hi|].
  rewrite Forall_forall in H. now apply H.
Qed.

Lemma step_nonnegative db db' :
  ledger_step db db' -> nonnegative db -> nonnegative db'.
Proof.
  intros [ing ing' m Hin Hid Hname Hst Hm Hprev Hq Hc Hnn Hi Hmv | Hi Hmv] H;
    unfold nonnegative in *; rewrite Hi; [|exact H].
  apply save_ingredient_Forall; [exact H|].
  rewrite Hst. apply Hnn.
  rewrite Forall_forall in H. now apply H.
Qed.

Lemma steps_nonnegative db db' :
  ledger_steps db db' -> nonnegative db -> nonnegative db'.
Proof.
  induction 1 as [|a b c Hab IH Hbc]; intro H; [exact H|].
  eapply step_nonnegative; eauto.
Qed.

(** C3.  Whatever orders are saved, whatever amounts are asked of the
    manual endpoint and whatever receipts come in, no balance of a
    database that starts without a negative balance is negative after any
    of the operations. *)
Theorem current_stock_never_negative (ops : list Op) (w : World) :
  nonnegative (fst w) ->
  forall n, nonnegative (fst (run (firstn n ops) w)).
Proof.
  intros H n. eapply steps_nonnegative; [apply run_steps | exact H].
Qed.

Lemma current_stock_never_negative_witness :
  nonnegative
    (fst (run (firstn 2
                 [SaveOrder (Instance.load Fixture.order_big);
                  DeductStock Fixture.admin 2 (JNum 500) "spill" "20260101";
                  ReceiveItems Fixture.admin 1 [ItemData.mk 12 10] "2026-01-02"])
              (Fixture.db, []))).
Proof.
  apply current_stock_never_negative.
  repeat constructor; simpl; discriminate.
Defined.

(** ** The chain of balances *)

Lemma newest_snoc h m : newest (h ++ [m]) = Some m.
Proof.
  induction h as [|x h IH]; [reflexivity|].
  simpl. destruct (h ++ [m]) eqn:E; [|exact IH].
  destruct h; discriminate.
Qed.

Lemma chained_snoc h m :
  chained h ->
  (forall l, newest h = Some l ->
             StockMovement.new_stock l == StockMovement.previous_stock m) ->
  chained (h ++ [m]).
Proof.
  induction h as [|x h IH]; intros Hc Hl; [exact I|].
  destruct h as [|y h].
  - simpl. split; [|exact I]. apply Hl. reflexivity.
  - destruct Hc as [Hxy Hc]. split; [exact Hxy|].
    apply IH; [exact Hc|]. intros l Hn. apply Hl. exact Hn.
Qed.

Lemma chained_nth h :
  chained h ->
  forall i m1 m2,
    nth_error h i = Some m1 -> nth_error h (S i) = Some m2 ->
    StockMovement.new_stock m1 == StockMovement.previous_stock m2.
Proof.
  induction h as [|x h IH]; intros Hc i m1 m2 H1 H2.
  - destruct i; discriminate.
  - destruct h as [|y h]; [destruct i; discriminate|].
    destruct Hc as [Hxy Hc].
    destruct i as [|i].
    + simpl in H1, H2. injection H1 as <-. injection H2 as <-. exact Hxy.
    + apply (IH Hc i); assumption.
Qed.

Lemma history_snoc pk db db' m :
  movements db' = movements db ++ [m] ->
  history pk db'
  = history pk db
    ++ (if Z.eqb (StockMovement.ingredient m) pk then [m] else []).
Proof.
  intro H. unfold history. rewrite H, filter_app. reflexivity.
Qed.

Lemma step_ledger_ok db db' :
  ledger_step db db' -> ledger_ok db -> ledger_ok db'.
Proof.
  intros [ing ing' m Hin Hid Hname Hst Hm Hprev Hq Hc Hnn Hi Hmv | Hi Hmv]
         [Hch Hbal].
  - split.
    + intro pk. rewrite (history_snoc pk db db' m Hmv).
      destruct (Z.eqb (StockMovement.ingredient m) pk) eqn:E.
      * apply chained_snoc; [apply Hch|].
        intros l Hl. apply Z.eqb_eq in E. rewrite Hprev.
        apply (Hbal ing l Hin). congruence.
      * rewrite app_nil_r. apply Hch.
    + intros r' m0 Hr' Hnew. rewrite Hi in Hr'. simpl in Hr'.
      apply in_map_iff in Hr'. destruct Hr' as [r [Hr Hrin]].
      rewrite (history_snoc _ db db' m Hmv) in Hnew.
      destruct (Z.eqb (Ingredient.id r) (Ingredient.id ing')) eqn:E.
      * subst r'. rewrite Hm, <- Hid, Z.eqb_refl in Hnew.
        rewrite newest_snoc in Hnew. injection Hnew as <-.
        rewrite Hst. reflexivity.
      * subst r'.
        assert (E' : Z.eqb (StockMovement.ingredient m) (Ingredient.id r)
                     = false).
        { rewrite Hm, <- Hid. rewrite Z.eqb_sym. exact E. }
        rewrite E', app_nil_r in Hnew. now apply (Hbal r m0).
  - split.
    + intro pk. unfold history. rewrite Hmv. apply Hch.
    + intros r m0 Hr Hnew. rewrite Hi in Hr.
      unfold history in Hnew. rewrite Hmv in Hnew. now apply (Hbal r m0).
Qed.

Lemma steps_ledger_ok db db' :
  ledger_steps db db' -> ledger_ok db -> ledger_ok db'.
Proof.
  induction 1 as [|a b c Hab IH Hbc]; intro H; [exact H|].
  eapply step_ledger_ok; eauto.
Qed.

Lemma steps_movements db db' :
  ledger_steps db db' ->
  exists added,
    movements db' = movements db ++ added /\ Forall consistent added.
Proof.
  induction 1 as [|a b c Hab [added [Hmv Hadd]] Hbc].
  - exists []. split; [now rewrite app_nil_r | constructor].
  - destruct Hbc as [ing ing' m _ _ _ _ _ _ _ Hc _ _ Hmv' | _ Hmv'].
    + exists (added ++ [m]). split.
      * rewrite Hmv', Hmv, app_assoc. reflexivity.
      * apply Forall_app. split; [exact Hadd | repeat constructor; exact Hc].
    + exists added. split; [congruence | exact Hadd].
Qed.

(** C4.  Starting from a ledger without a gap that agrees with the
    register, any sequence of order deductions, manual deductions and
    purchase-order receipts only appends movements; each movement appended
    satisfies [new_stock = previous_stock + signed(quantity, kind)], and in
    the history of every ingredient the [new_stock] of a movement is the
    [previous_stock] of the next one. *)
Theorem movements_consistent_and_chained (ops : list Op) (w : World) :
  ledger_ok (fst w) ->
  let db' := fst (run ops w) in
  (exists added,
      movements db' = movements (fst w) ++ added /\ Forall consistent added)
  /\ (forall pk i m1 m2,
        nth_error (history pk db') i = Some m1 ->
        nth_error (history pk db') (S i) = Some m2 ->
        StockMovement.new_stock m1 == StockMovement.previous_stock m2)
  /\ ledger_ok db'.
Proof.
  intros H db'. pose proof (run_steps ops w) as Hs. fold db' in Hs.
  pose proof (steps_ledger_ok _ _ Hs H) as Hok.
  split; [now apply steps_movements|]. split; [|exact Hok].
  intro pk. apply chained_nth. apply Hok.
Qed.

Lemma ledger_ok_empty db : movements db = [] -> ledger_ok db.
Proof.
  intro H. split.
  - intro pk. unfold history. rewrite H. exact I.
  - intros r m _ Hn. unfold history in Hn. rewrite H in Hn. discriminate.
Qed.

Lemma movements_consistent_and_chained_witness :
  let db' :=
    fst (run [SaveOrder (Instance.load Fixture.order_small);
              DeductStock Fixture.admin 1 (JNum 3) "spill" "20260101";
              ReceiveItems Fixture.admin 1 [ItemData.mk 11 50] "2026-01-02"]
             (Fixture.db, [])) in
  map (fun m => (StockMovement.previous_stock m, StockMovement.new_stock m))
      (history 1 db')
  = [(10, 8); (8, 5); (5, 55)]
  /\ ledger_ok db'.
Proof.
  split; [vm_compute; reflexivity|].
  apply movements_consistent_and_chained.
  apply ledger_ok_empty. reflexivity.
Defined.

(** ** Receiving purchase-order lines *)

Lemma get_po_item_saved item_id po it it' db :
  get_po_item item_id po db = Some it ->
  PurchaseOrderItem.id it' = PurchaseOrderItem.id it ->
  PurchaseOrderItem.purchase_order it' = PurchaseOrderItem.purchase_order it ->
  get_po_item item_id po (save_po_item it' db) = Some it'.
Proof.
  unfold get_po_item, save_po_item. simpl.
  intros H Hid Hpo.
  assert (Hit : PurchaseOrderItem.id it = item_id
                /\ PurchaseOrderItem.purchase_order it = po).
  { apply find_some in H. destruct H as [_ H].
    apply andb_true_iff in H. destruct H as [H1 H2].
    apply Z.eqb_eq in H1. apply Z.eqb_eq in H2. auto. }
  destruct Hit as [Hi Hp].
  induction (purchase_order_items db) as [|x l IH]; [discriminate|].
  simpl in *.
  destruct (Z.eqb (PurchaseOrderItem.id x) (PurchaseOrderItem.id it')) eqn:E.
  - rewrite Hid, Hpo, Hi, Hp, !Z.eqb_refl. reflexivity.
  - destruct (Z.eqb (PurchaseOrderItem.id x) item_id
              && Z.eqb (PurchaseOrderItem.purchase_order x) po)%bool eqn:F.
    + injection H as ->. rewrite Hid, Z.eqb_refl in E. discriminate.
    + apply IH. exact H.
Qed.

Lemma save_po_item_twice it db :
  save_po_item it (save_po_item it db) = save_po_item it db.
Proof.
  unfold save_po_item, with_purchase_order_items. simpl. f_equal.
  rewrite map_map. apply map_ext. intro r.
  destruct (Z.eqb (PurchaseOrderItem.id r) (PurchaseOrderItem.id it)) eqn:E.
  - rewrite Z.eqb_refl. reflexivity.
  - rewrite E. reflexivity.
Qed.

Lemma get_saved_pk pk i db :
  Ingredient.id i = pk ->
  (exists r, In r (ingredients db) /\ Ingredient.id r = Ingredient.id i) ->
  get_ingredient pk (save_ingredient i db) = Some i.
Proof. intros <-. apply get_saved. Qed.

(** A line that is found, with a positive quantity and a resolved
    ingredient: the line is overwritten and the register's [add] runs. *)
Lemma receive_item_positive user purchase_order item_data db it ing :
  get_po_item (ItemData.item_id item_data) (PurchaseOrder.id purchase_order) db
  = Some it ->
  0 < ItemData.received_quantity item_data ->
  get_ingredient (PurchaseOrderItem.ingredient it) db = Some ing ->
  let q := ItemData.received_quantity item_data in
  receive_item user purchase_order item_data db
  = inl
      (with_movements
         (movements db
          ++ [StockMovement.mk (PurchaseOrderItem.ingredient it) MoveIn q
                (Ingredient.current_stock ing)
                (Ingredient.current_stock ing + q)
                (PurchaseOrderItem.unit_cost it)
                (q * PurchaseOrderItem.unit_cost it)
                ("PO #" ++ PurchaseOrder.po_number purchase_order)
                "Received from purchase order" (User.id user)])
         (save_ingredient
            (Ingredient.set_unit_cost (PurchaseOrderItem.unit_cost it)
               (Ingredient.set_current_stock
                  (Ingredient.current_stock ing + q) ing))
            (save_po_item (PurchaseOrderItem.set_received_quantity q it) db))).
Proof.
  intros Hit Hq Hing q. unfold receive_item. rewrite Hit.
  pose proof Hq as Hq'. apply ltb_lt in Hq'. rewrite Hq'.
  rewrite (create_in_effect _ _ _ _ _ _ _ ing); [reflexivity | exact Hing | exact Hq].
Qed.

(** C5.  A receipt line with a positive quantity for a line of the
    purchase order raises the balance of the line's ingredient by the
    quantity received, sets the ingredient's unit cost to the cost of the
    line, and appends an 'in' movement with reference 'PO #<number>'. *)
Theorem receipt_line_adds_stock user purchase_order item_data db it ing :
  get_po_item (ItemData.item_id item_data) (PurchaseOrder.id purchase_order) db
  = Some it ->
  0 < ItemData.received_quantity item_data ->
  get_ingredient (PurchaseOrderItem.ingredient it) db = Some ing ->
  exists db' ing' m,
    receive_item user purchase_order item_data db = inl db'
    /\ get_ingredient (PurchaseOrderItem.ingredient it) db' = Some ing'
    /\ Ingredient.current_stock ing'
       = Ingredient.current_stock ing + ItemData.received_quantity item_data
    /\ Ingredient.unit_cost ing' = PurchaseOrderItem.unit_cost it
    /\ movements db' = movements db ++ [m]
    /\ StockMovement.ingredient m = PurchaseOrderItem.ingredient it
    /\ StockMovement.movement_type m = MoveIn
    /\ StockMovement.quantity m = ItemData.received_quantity item_data
    /\ StockMovement.reference m
       = ("PO #" ++ PurchaseOrder.po_number purchase_order)%string.
Proof.
  intros Hit Hq Hing.
  rewrite (receive_item_positive user purchase_order item_data db it ing
             Hit Hq Hing).
  set (ing' := Ingredient.set_unit_cost (PurchaseOrderItem.unit_cost it)
                 (Ingredient.set_current_stock
                    (Ingredient.current_stock ing
                     + ItemData.received_quantity item_data) ing)).
  eexists. exists ing'. eexists. split; [reflexivity|].
  split; [|repeat split].
  destruct (get_ingredient_In _ _ _ Hing) as [Hin Hid].
  apply (get_saved_pk _ ing' db); [exact Hid|].
  exists ing. split; [exact Hin | reflexivity].
Qed.

Lemma receipt_line_adds_stock_witness :
  exists db',
    receive_item Fixture.admin Fixture.po (ItemData.mk 12 10) Fixture.db
    = inl db'
    /\ option_map Ingredient.current_stock (get_ingredient 3 db') = Some (0 + 10)
    /\ option_map Ingredient.unit_cost (get_ingredient 3 db') = Some 2
    /\ map StockMovement.reference (movements db') = ["PO #PO-0001"%string].
Proof.
  destruct (receipt_line_adds_stock Fixture.admin Fixture.po
              (ItemData.mk 12 10) Fixture.db Fixture.line_sugar Fixture.sugar)
    as (db' & ing' & m & Hrun & Hget & Hstock & Hcost & Hmv & _ & _ & _ & Href).
  - reflexivity.
  - reflexivity.
  - reflexivity.
  - exists db'. split; [exact Hrun|].
    simpl in Hget. rewrite Hget. simpl. rewrite Hstock, Hcost, Hmv.
    simpl. rewrite Href. repeat split.
Defined.

Lemma receive_item_not_positive user purchase_order item_data db it :
  get_po_item (ItemData.item_id item_data) (PurchaseOrder.id purchase_order) db
  = Some it ->
  ItemData.received_quantity item_data <= 0 ->
  receive_item user purchase_order item_data db
  = inl (save_po_item
           (PurchaseOrderItem.set_received_quantity
              (ItemData.received_quantity item_data) it) db).
Proof.
  intros Hit Hq. unfold receive_item. rewrite Hit.
  apply ltb_ge in Hq. rewrite Hq. reflexivity.
Qed.

(** Receiving 10 kg of sugar on line 12 twice is not the same as receiving
    it once: the second call writes a second movement and adds the 10 kg
    to the balance again. *)
Lemma second_receipt_is_not_a_no_op :
  let once := snd (receive_items Fixture.admin 1 [ItemData.mk 12 10]
                     "2026-01-02" Fixture.db) in
  let twice := snd (receive_items Fixture.admin 1 [ItemData.mk 12 10]
                      "2026-01-02" once) in
  twice <> once
  /\ map StockMovement.quantity (movements once) = [10]
  /\ map StockMovement.quantity (movements twice) = [10; 10]
  /\ option_map Ingredient.current_stock (get_ingredient 3 once) = Some 10
  /\ option_map Ingredient.current_stock (get_ingredient 3 twice) = Some 20
  /\ purchase_order_items twice = purchase_order_items once.
Proof.
  cbv zeta. split.
  - intro H. apply (f_equal (fun d => List.length (movements d))) in H.
    vm_compute in H. discriminate.
  - vm_compute. repeat split.
Qed.

(** C6 (amended).  Receiving a line overwrites its received quantity with
    the quantity sent, whatever it was before.  Receiving the same line
    with the same quantity again leaves the lines as they were after the
    first call; when the quantity is positive it appends one more 'in'
    movement of that quantity and adds the quantity to the balance once
    more, and otherwise it changes nothing. *)
Theorem repeated_receipt_keeps_line_adds_again
    user purchase_order item_data db it ing :
  get_po_item (ItemData.item_id item_data) (PurchaseOrder.id purchase_order) db
  = Some it ->
  get_ingredient (PurchaseOrderItem.ingredient it) db = Some ing ->
  let q := ItemData.received_quantity item_data in
  let first := db_of (receive_item user purchase_order item_data db) in
  let second := db_of (receive_item user purchase_order item_data first) in
  get_po_item (ItemData.item_id item_data) (PurchaseOrder.id purchase_order)
    first
  = Some (PurchaseOrderItem.set_received_quantity q it)
  /\ purchase_order_items second = purchase_order_items first
  /\ (0 < q ->
      exists m ing1 ing2,
        movements second = movements first ++ [m]
        /\ StockMovement.movement_type m = MoveIn
        /\ StockMovement.quantity m = q
        /\ get_ingredient (PurchaseOrderItem.ingredient it) first = Some ing1
        /\ get_ingredient (PurchaseOrderItem.ingredient it) second = Some ing2
        /\ Ingredient.current_stock ing1 = Ingredient.current_stock ing + q
        /\ Ingredient.current_stock ing2 = Ingredient.current_stock ing + q + q)
  /\ (q <= 0 -> second = first).
Proof.
  intros Hit Hing q first second.
  set (it' := PurchaseOrderItem.set_received_quantity q it).
  assert (Hit' : forall d,
             purchase_order_items d = purchase_order_items (save_po_item it' db) ->
             get_po_item (ItemData.item_id item_data)
               (PurchaseOrder.id purchase_order) d = Some it').
  { intros d Hd. unfold get_po_item. rewrite Hd.
    apply (get_po_item_saved _ _ it it' db Hit); reflexivity. }
  destruct (get_ingredient_In _ _ _ Hing) as [Hin Hid].
  destruct (Qlt_le_dec 0 q) as [Hpos | Hle].
  - pose proof (receive_item_positive user purchase_order item_data db it ing
                  Hit Hpos Hing) as E1.
    cbv zeta in E1. fold q in E1. fold it' in E1.
    set (ing1 := Ingredient.set_unit_cost (PurchaseOrderItem.unit_cost it)
                   (Ingredient.set_current_stock
                      (Ingredient.current_stock ing + q) ing)) in E1.
    set (db1 := with_movements _ (save_ingredient ing1 (save_po_item it' db)))
      in E1.
    assert (Hit1 : get_po_item (ItemData.item_id item_data)
                     (PurchaseOrder.id purchase_order) db1 = Some it')
      by (apply Hit'; reflexivity).
    assert (Hing1 : get_ingredient (PurchaseOrderItem.ingredient it') db1
                    = Some ing1).
    { apply (get_saved_pk _ ing1 db); [exact Hid|].
      exists ing. split; [exact Hin | reflexivity]. }
    pose proof (receive_item_positive user purchase_order item_data db1 it'
                  ing1 Hit1 Hpos Hing1) as E2.
    cbv zeta in E2. fold q in E2.
    set (ing2 := Ingredient.set_unit_cost (PurchaseOrderItem.unit_cost it')
                   (Ingredient.set_current_stock
                      (Ingredient.current_stock ing1 + q) ing1)) in E2.
    unfold second, first. rewrite E1. simpl db_of. rewrite E2. simpl db_of.
    split; [exact Hit1|]. split; [|split].
    + change (purchase_order_items (save_po_item it' (save_po_item it' db))
              = purchase_order_items (save_po_item it' db)).
      now rewrite save_po_item_twice.
    + intros _. eexists. exists ing1, ing2.
      split; [reflexivity|]. split; [reflexivity|]. split; [reflexivity|].
      split; [exact Hing1|]. split; [|split; reflexivity].
      apply (get_saved_pk _ ing2 db1); [exact Hid|].
      exists ing1. split; [|reflexivity].
      destruct (get_ingredient_In _ _ _ Hing1) as [Hin1 _]. exact Hin1.
    + intro Hle. lra.
  - unfold second, first.
    rewrite (receive_item_not_positive _ _ _ _ _ Hit Hle).
    fold q. fold it'. simpl db_of.
    assert (Hit1 : get_po_item (ItemData.item_id item_data)
                     (PurchaseOrder.id purchase_order) (save_po_item it' db)
                   = Some it') by (apply Hit'; reflexivity).
    rewrite (receive_item_not_positive _ _ _ _ _ Hit1 Hle).
    fold q. simpl db_of.
    change (PurchaseOrderItem.set_received_quantity q it') with it'.
    rewrite save_po_item_twice.
    split; [exact Hit1|]. split; [reflexivity|]. split; [|reflexivity].
    intro Hpos. lra.
Qed.

Lemma repeated_receipt_keeps_line_adds_again_witness :
  let first := db_of (receive_item Fixture.admin Fixture.po
                        (ItemData.mk 12 10) Fixture.db) in
  let second := db_of (receive_item Fixture.admin Fixture.po
                         (ItemData.mk 12 10) first) in
  get_po_item 12 1 first
  = Some (PurchaseOrderItem.set_received_quantity 10 Fixture.line_sugar)
  /\ purchase_order_items second = purchase_order_items first.
Proof.
  pose proof (repeated_receipt_keeps_line_adds_again Fixture.admin Fixture.po
                (ItemData.mk 12 10) Fixture.db Fixture.line_sugar
                Fixture.sugar eq_refl eq_refl) as H.
  cbv zeta in H. destruct H as [H1 [H2 _]]. split; [exact H1 | exact H2].
Defined.

(** ** The status of a purchase order after a receipt *)

Lemma create_in_inv pk qty cost reference notes actor db db' :
  StockMovement_create_in pk qty cost reference notes actor db = Some db' ->
  exists ing' l,
    Ingredient.id ing' = pk
    /\ db' = with_movements l (save_ingredient ing' db).
Proof.
  unfold StockMovement_create_in.
  destruct (get_ingredient pk db) as [ing|] eqn:Hg; [|discriminate].
  intro H. apply create_inv in H. destruct H as [-> _].
  apply get_ingredient_In in Hg. destruct Hg as [_ Hid].
  eexists; eexists. split; [|reflexivity]. exact Hid.
Qed.

Lemma save_ingredient_ids i db :
  map Ingredient.id (ingredients (save_ingredient i db))
  = map Ingredient.id (ingredients db).
Proof.
  simpl. rewrite map_map. apply map_ext_in. intros r _.
  destruct (Z.eqb (Ingredient.id r) (Ingredient.id i)) eqn:E; [|reflexivity].
  apply Z.eqb_eq in E. congruence.
Qed.

Lemma get_ingredient_ids pk db :
  (exists ing, get_ingredient pk db = Some ing)
  <-> In pk (map Ingredient.id (ingredients db)).
Proof.
  unfold get_ingredient. split.
  - intros [ing H]. apply find_some in H. destruct H as [Hin Hid].
    apply Z.eqb_eq in Hid. subst pk. now apply in_map.
  - intro H. apply in_map_iff in H. destruct H as [r [Hid Hin]].
    destruct (find _ (ingredients db)) as [ing|] eqn:F; [eauto|].
    exfalso. apply (find_none _ _ F) in Hin.
    apply Z.eqb_neq in Hin. contradiction.
Qed.

(** What a pass of the receipt loop leaves alone. *)
Lemma receive_item_frame user purchase_order item_data db :
  let db' := db_of (receive_item user purchase_order item_data db) in
  purchase_orders db' = purchase_orders db
  /\ map Ingredient.id (ingredients db') = map Ingredient.id (ingredients db)
  /\ (forall x, In x (purchase_order_items db') ->
        exists y, In y (purchase_order_items db)
                  /\ PurchaseOrderItem.ingredient x
                     = PurchaseOrderItem.ingredient y).
Proof.
  cbv zeta. unfold receive_item.
  destruct (get_po_item _ _ db) as [it|] eqn:Hit; [|simpl; eauto].
  set (it' := PurchaseOrderItem.set_received_quantity _ it).
  assert (H1 : forall x, In x (purchase_order_items (save_po_item it' db)) ->
                 exists y, In y (purchase_order_items db)
                           /\ PurchaseOrderItem.ingredient x
                              = PurchaseOrderItem.ingredient y).
  { intros x Hx. simpl in Hx. apply in_map_iff in Hx.
    destruct Hx as [r [Hr Hin]].
    destruct (Z.eqb _ _); subst x; [|eauto].
    exists it. split; [|reflexivity].
    unfold get_po_item in Hit. apply find_some in Hit. tauto. }
  destruct (Dec.ltb 0 _); [|simpl; auto].
  destruct (StockMovement_create_in _ _ _ _ _ _ _) as [db2|] eqn:Hc;
    [|simpl; auto].
  apply create_in_inv in Hc. destruct Hc as (ing' & l & _ & ->).
  simpl db_of. split; [reflexivity|]. split; [|exact H1].
  apply (save_ingredient_ids ing' (save_po_item it' db)).
Qed.

Lemma receive_item_resolves user purchase_order item_data db :
  lines_resolve db ->
  lines_resolve (db_of (receive_item user purchase_order item_data db)).
Proof.
  intros H x Hx.
  destruct (receive_item_frame user purchase_order item_data db)
    as (_ & Hids & Hlines).
  destruct (Hlines x Hx) as [y [Hy ->]].
  apply get_ingredient_ids. rewrite Hids. apply get_ingredient_ids.
  now apply H.
Qed.

(** With every line pointing to an ingredient row, the loop over
    [received_items] runs to its end. *)
Lemma receive_loop_total user purchase_order received_items db :
  lines_resolve db ->
  exists db',
    receive_loop user purchase_order received_items db = inl db'
    /\ purchase_orders db' = purchase_orders db.
Proof.
  revert db. induction received_items as [|x l IH]; intros db H; simpl.
  - eauto.
  - pose proof (receive_item_resolves user purchase_order x db H) as Hres.
    destruct (receive_item_frame user purchase_order x db) as (Hpo & _ & _).
    destruct (receive_item user purchase_order x db) as [db1|db1] eqn:E.
    + simpl in *. destruct (IH db1 Hres) as [db' [Hl Hp]].
      exists db'. split; [exact Hl | congruence].
    + exfalso. unfold receive_item in E.
      destruct (get_po_item _ _ db) as [it|] eqn:Hit; [|discriminate].
      destruct (Dec.ltb 0 _) eqn:Hq; [|discriminate].
      apply ltb_lt in Hq.
      unfold get_po_item in Hit. apply find_some in Hit.
      destruct Hit as [Hin _]. destruct (H it Hin) as [ing Hing].
      rewrite (create_in_effect _ _ _ _ _ _ _ ing) in E;
        [discriminate | exact Hing | exact Hq].
Qed.

Lemma all_received_Forall po db :
  all_received po db = true
  <-> Forall (fun it => PurchaseOrderItem.quantity it
                        <= PurchaseOrderItem.received_quantity it)
             (items_of po db).
Proof.
  unfold all_received, Dec.geb. rewrite forallb_forall, Forall_forall.
  split; intros H x Hx; apply Qle_bool_iff; now apply H.
Qed.

Lemma find_saved_po p db :
  (exists r, In r (purchase_orders db)
             /\ PurchaseOrder.id r = PurchaseOrder.id p) ->
  find (fun r => Z.eqb (PurchaseOrder.id r) (PurchaseOrder.id p))
       (purchase_orders (save_purchase_order p db))
  = Some p.
Proof.
  simpl. induction (purchase_orders db) as [|x l IH]; intros [r [Hin Hid]].
  - destruct Hin.
  - simpl. destruct (Z.eqb (PurchaseOrder.id x) (PurchaseOrder.id p)) eqn:E.
    + rewrite Z.eqb_refl. reflexivity.
    + rewrite E. apply IH. destruct Hin as [->|Hin].
      * apply Z.eqb_neq in E. congruence.
      * eauto.
Qed.

(** C7.  After a receipt, the purchase order has status 'received' when
    every one of its lines has a received quantity of at least the
    quantity ordered; when some line is short, the purchase order is left
    as it was. *)
Theorem receive_items_status user pk received_items today db po :
  find (fun p => Z.eqb (PurchaseOrder.id p) pk)
       (purchase_order_queryset user db) = Some po ->
  lines_resolve db ->
  let r := receive_items user pk received_items today db in
  let all_in :=
    Forall (fun it => PurchaseOrderItem.quantity it
                      <= PurchaseOrderItem.received_quantity it)
           (items_of pk (snd r)) in
  fst r = HTTP_200_OK ItemsReceived
  /\ exists po',
      find (fun p => Z.eqb (PurchaseOrder.id p) pk) (purchase_orders (snd r))
      = Some po'
      /\ (all_in -> PurchaseOrder.status po' = "received"%string)
      /\ (~ all_in -> po' = po)
      /\ (PurchaseOrder.status po <> "received"%string ->
          (PurchaseOrder.status po' = "received"%string <-> all_in)).
Proof.
  intros Hfind Hres r all_in. subst r all_in. unfold receive_items.
  rewrite Hfind.
  assert (Hq : purchase_order_queryset user db = purchase_orders db).
  { unfold purchase_order_queryset in *.
    destruct (_ || _)%bool; [reflexivity | discriminate]. }
  rewrite Hq in Hfind.
  pose proof (find_some _ _ Hfind) as [Hin Hid]. apply Z.eqb_eq in Hid.
  destruct (receive_loop_total user po received_items db Hres)
    as [db1 [Hloop Hpos]].
  rewrite Hloop. rewrite Hid.
  destruct (all_received pk db1) eqn:Hall.
  - simpl. split; [reflexivity|].
    apply all_received_Forall in Hall.
    exists (PurchaseOrder.mk pk (PurchaseOrder.po_number po) "received"
              (Some today)).
    split.
    + apply (find_saved_po (PurchaseOrder.mk pk _ _ _) db1).
      exists po. rewrite Hpos. auto.
    + split; [reflexivity|]. split; [intro H; contradiction|].
      intros _. split; [intros _; exact Hall | reflexivity].
  - simpl. split; [reflexivity|].
    assert (Hnot : ~ Forall (fun it => PurchaseOrderItem.quantity it
                                       <= PurchaseOrderItem.received_quantity it)
                     (items_of pk db1)).
    { intro H. apply all_received_Forall in H. congruence. }
    exists po. rewrite Hpos. split; [exact Hfind|].
    split; [intro H; contradiction|]. split; [reflexivity|].
    intro Hst. split; [intro H; contradiction | intro H; contradiction].
Qed.

Lemma lines_resolve_fixture : lines_resolve Fixture.db.
Proof.
  intros it Hin. simpl in Hin.
  destruct Hin as [<-|[<-|[]]]; eexists; reflexivity.
Qed.

Lemma receive_items_status_witness :
  let r := receive_items Fixture.admin 1 [ItemData.mk 11 50; ItemData.mk 12 20]
             "2026-01-02" Fixture.db in
  fst r = HTTP_200_OK ItemsReceived
  /\ option_map PurchaseOrder.status
       (find (fun p => Z.eqb (PurchaseOrder.id p) 1) (purchase_orders (snd r)))
     = Some "received"%string.
Proof.
  destruct (receive_items_status Fixture.admin 1
              [ItemData.mk 11 50; ItemData.mk 12 20] "2026-01-02" Fixture.db
              Fixture.po eq_refl lines_resolve_fixture)
    as [H200 [po' [Hf [Hall _]]]].
  split; [exact H200|].
  rewrite Hf. simpl. f_equal. apply Hall.
  apply all_received_Forall. vm_compute. reflexivity.
Defined.

(** ** The availability check *)

Lemma unavailable_In servings l u :
  In u (unavailable servings l) <->
  exists ri,
    In ri l
    /\ Ingredient.current_stock (RecipeIngredient.ingredient ri)
       < RecipeIngredient.quantity ri * inject_Z servings
    /\ u = Unavailable.mk
             (Ingredient.name (RecipeIngredient.ingredient ri))
             (RecipeIngredient.quantity ri * inject_Z servings)
             (Ingredient.current_stock (RecipeIngredient.ingredient ri))
             (RecipeIngredient.quantity ri * inject_Z servings
              - Ingredient.current_stock (RecipeIngredient.ingredient ri)).
Proof.
  induction l as [|x l IH]; simpl.
  - split; [intros [] | intros [ri [[] _]]].
  - destruct (Dec.ltb _ _) eqn:E.
    + apply ltb_lt in E. simpl. rewrite IH. split.
      * intros [<- | [ri [Hin H]]]; [exists x; auto | exists ri; tauto].
      * intros [ri [[-> | Hin] [Hlt ->]]]; [now left | right; eauto].
    + apply ltb_ge in E. rewrite IH. split.
      * intros [ri [Hin H]]. exists ri. tauto.
      * intros [ri [[-> | Hin] [Hlt ->]]]; [lra | eauto].
Qed.

(** C8.  The availability check answers [available = true] exactly when
    no ingredient of the recipe is required (quantity per serving times
    servings) in a larger quantity than its balance; the ingredients it
    reports are exactly the insufficient ones, each with the quantity
    required, the balance and their difference.  Half a kilogram of flour
    per serving, checked for 4 servings against 1.5 kg, is unavailable with
    a shortfall of half a kilogram. *)
Theorem check_availability_correct (recipe : Recipe.t) (servings : Z) :
  let r := check_availability recipe servings in
  (Availability.available r = true <->
   Forall (fun ri =>
             RecipeIngredient.quantity ri * inject_Z servings
             <= Ingredient.current_stock (RecipeIngredient.ingredient ri))
          (Recipe.ingredients recipe))
  /\ (forall u,
        In u (Availability.unavailable_ingredients r) <->
        exists ri,
          In ri (Recipe.ingredients recipe)
          /\ Ingredient.current_stock (RecipeIngredient.ingredient ri)
             < RecipeIngredient.quantity ri * inject_Z servings
          /\ u = Unavailable.mk
                   (Ingredient.name (RecipeIngredient.ingredient ri))
                   (RecipeIngredient.quantity ri * inject_Z servings)
                   (Ingredient.current_stock (RecipeIngredient.ingredient ri))
                   (RecipeIngredient.quantity ri * inject_Z servings
                    - Ingredient.current_stock
                        (RecipeIngredient.ingredient ri)))
  /\ (forall u,
        In u (Availability.unavailable_ingredients r) ->
        Unavailable.shortage u
        = Unavailable.required u - Unavailable.available u)
  /\ (let s := check_availability Fixture.chocolate_cake 4 in
      Availability.available s = false
      /\ exists u,
          Availability.unavailable_ingredients s = [u]
          /\ Unavailable.ingredient u = "Flour"%string
          /\ Unavailable.required u == 2
          /\ Unavailable.available u == 3 # 2
          /\ Unavailable.shortage u == 1 # 2).
Proof.
  cbv zeta. split; [|split; [|split]].
  - unfold check_availability. simpl. rewrite Forall_forall. split.
    + intros H ri Hin.
      destruct (Qlt_le_dec
                  (Ingredient.current_stock (RecipeIngredient.ingredient ri))
                  (RecipeIngredient.quantity ri * inject_Z servings))
        as [Hlt | Hle]; [|exact Hle].
      exfalso.
      assert (Hu : In (Unavailable.mk
                         (Ingredient.name (RecipeIngredient.ingredient ri))
                         (RecipeIngredient.quantity ri * inject_Z servings)
                         (Ingredient.current_stock
                            (RecipeIngredient.ingredient ri))
                         (RecipeIngredient.quantity ri * inject_Z servings
                          - Ingredient.current_stock
                              (RecipeIngredient.ingredient ri)))
                      (unavailable servings (Recipe.ingredients recipe))).
      { apply unavailable_In. exists ri. auto. }
      destruct (unavailable servings (Recipe.ingredients recipe));
        [destruct Hu | discriminate].
    + intro H.
      destruct (unavailable servings (Recipe.ingredients recipe)) as [|u l] eqn:E;
        [reflexivity|].
      exfalso.
      assert (Hu : In u (unavailable servings (Recipe.ingredients recipe)))
        by (rewrite E; now left).
      apply unavailable_In in Hu. destruct Hu as [ri [Hin [Hlt _]]].
      specialize (H ri Hin). simpl in H. lra.
  - intro u. apply unavailable_In.
  - intros u Hu. apply unavailable_In in Hu.
    destruct Hu as [ri [_ [_ ->]]]. reflexivity.
  - split; [reflexivity|]. eexists. split; [reflexivity|].
    repeat split; reflexivity.
Qed.

Lemma check_availability_correct_witness :
  In (Unavailable.mk "Flour" ((1 # 2) * inject_Z 4) (3 # 2)
        ((1 # 2) * inject_Z 4 - (3 # 2)))
     (Availability.unavailable_ingredients
        (check_availability Fixture.chocolate_cake 4)).
Proof.
  apply (proj1 (proj2 (check_availability_correct Fixture.chocolate_cake 4))).
  exists (RecipeIngredient.mk (Ingredient.mk 1 "Flour" "kg" (3 # 2) 2 3) (1 # 2)).
  split; [now left|]. split; reflexivity.
Defined.

(** ** Lines that cannot be deducted *)

Lemma deduct_entry_Done cake_name quantity order_number system_user d w :
  exists w', deduct_entry cake_name quantity order_number system_user d w
             = Done w'.
Proof.
  destruct w as [db out].
  destruct (deduct_entry_effect cake_name quantity order_number system_user
              d db out) as [out' [H | (ing & others & t & notes & _ & _ & _ & H)]];
    rewrite H; eauto.
Qed.

(** The database that a pass leaves does not depend on what has been
    printed. *)
Lemma deduct_entry_db cake_name quantity order_number system_user d db
      out1 out2 :
  fst (world_of (deduct_entry cake_name quantity order_number system_user d
                   (db, out1)))
  = fst (world_of (deduct_entry cake_name quantity order_number system_user d
                     (db, out2))).
Proof.
  unfold deduct_entry.
  destruct (String.eqb _ _ || Qle_bool _ _)%bool; [reflexivity|].
  destruct (ingredients_named _ db) as [|ing others]; [reflexivity|].
  destruct (Dec.ltb 0 _); [|reflexivity].
  destruct (StockMovement_create _ _); reflexivity.
Qed.

Lemma deduct_entry_unresolved cake_name quantity order_number system_user d
      db out :
  resolves db d = false ->
  fst (world_of (deduct_entry cake_name quantity order_number system_user d
                   (db, out))) = db.
Proof.
  unfold resolves, deduct_entry. intro H.
  destruct (String.eqb _ _ || Qle_bool _ _)%bool; [reflexivity|].
  destruct (ingredients_named _ db); [reflexivity | discriminate].
Qed.

Lemma resolves_names db db' d :
  map Ingredient.name (ingredients db') = map Ingredient.name (ingredients db) ->
  resolves db' d = resolves db d.
Proof.
  unfold resolves, ingredients_named.
  generalize (ingredients db) as l. generalize (ingredients db') as l'.
  induction l' as [|x l' IH]; intros [|y l] H; try discriminate; [reflexivity|].
  simpl in H. injection H as Hxy H. simpl. rewrite Hxy.
  destruct (iexact (Ingredient.name y) (IngredientData.name d));
    [reflexivity | now apply IH].
Qed.

Lemma unique_ids_same_row db r1 r2 :
  unique_ids db -> In r1 (ingredients db) -> In r2 (ingredients db) ->
  Ingredient.id r1 = Ingredient.id r2 -> r1 = r2.
Proof.
  unfold unique_ids. induction (ingredients db) as [|x l IH]; intros Hnd H1 H2 Hid.
  - destruct H1.
  - simpl in Hnd. inversion Hnd as [|? ? Hnotin Hnd']. subst.
    destruct H1 as [->|H1], H2 as [->|H2].
    + reflexivity.
    + exfalso. apply Hnotin. rewrite Hid. now apply in_map.
    + exfalso. apply Hnotin. rewrite <- Hid. now apply in_map.
    + now apply IH.
Qed.

Lemma step_names db db' :
  ledger_step db db' -> unique_ids db ->
  unique_ids db'
  /\ map Ingredient.name (ingredients db') = map Ingredient.name (ingredients db).
Proof.
  intros [ing ing' m Hin Hid Hname _ _ _ _ _ _ Hi _ | Hi _] Hu;
    unfold unique_ids in *; rewrite Hi; [|auto].
  split.
  - rewrite save_ingredient_ids. exact Hu.
  - simpl. rewrite map_map. apply map_ext_in. intros r Hr.
    destruct (Z.eqb (Ingredient.id r) (Ingredient.id ing')) eqn:E; [|reflexivity].
    apply Z.eqb_eq in E.
    rewrite (unique_ids_same_row db r ing Hu Hr Hin); congruence.
Qed.

Lemma steps_names db db' :
  ledger_steps db db' -> unique_ids db ->
  unique_ids db'
  /\ map Ingredient.name (ingredients db') = map Ingredient.name (ingredients db).
Proof.
  induction 1 as [|a b c Hab IH Hbc]; intro Hu; [auto|].
  destruct (IH Hu) as [Hu' Hn].
  destruct (step_names _ _ Hbc Hu') as [Hu'' Hn'].
  split; [exact Hu'' | congruence].
Qed.

(** The entries that do not resolve change nothing: the loop leaves the
    database that it leaves on the entries that resolve. *)
Lemma deduct_entries_resolvable cake_name quantity order_number system_user
      db0 l :
  forall w1 w2,
    fst w1 = fst w2 -> unique_ids (fst w1) ->
    map Ingredient.name (ingredients (fst w1))
    = map Ingredient.name (ingredients db0) ->
    fst (world_of (deduct_entries cake_name quantity order_number system_user
                     l w1))
    = fst (world_of (deduct_entries cake_name quantity order_number
                       system_user (filter (resolves db0) l) w2)).
Proof.
  induction l as [|d l IH]; intros [db1 out1] [db2 out2] Hdb Hu Hn;
    simpl in Hdb; subst db2; [reflexivity|].
  simpl in Hu, Hn. cbn [deduct_entries filter].
  pose proof (deduct_entry_steps cake_name quantity order_number system_user
                d (db1, out1)) as Hs.
  pose proof (deduct_entry_db cake_name quantity order_number system_user d
                db1 out1 out2) as Hsame.
  destruct (deduct_entry_Done cake_name quantity order_number system_user d
              (db1, out1)) as [w1' E1].
  destruct (deduct_entry_Done cake_name quantity order_number system_user d
              (db1, out2)) as [w2' E2].
  rewrite E1 in *. rewrite E2 in Hsame. simpl in Hs, Hsame.
  destruct (steps_names _ _ Hs Hu) as [Hu' Hn'].
  destruct (resolves db0 d) eqn:R.
  - cbn [deduct_entries]. rewrite E2.
    apply IH; [exact Hsame | exact Hu' | congruence].
  - assert (Hkeep : fst w1' = db1).
    { rewrite <- (resolves_names db0 db1 d) in R by exact Hn.
      pose proof (deduct_entry_unresolved cake_name quantity order_number
                    system_user d db1 out1 R) as H.
      rewrite E1 in H. exact H. }
    apply IH; [rewrite Hkeep; reflexivity | exact Hu' | congruence].
Qed.

Lemma deduct_ingredients_for_cake_db cake quantity order system_user w :
  fst (deduct_ingredients_for_cake cake quantity order system_user w)
  = fst (world_of (deduct_entries (Cake.name cake) quantity
                     (Order.order_number order) system_user
                     (Cake.ingredients cake) w)).
Proof.
  unfold deduct_ingredients_for_cake.
  destruct (Cake.ingredients cake) as [|d l]; [reflexivity|].
  destruct (deduct_entries _ _ _ _ (d :: l) w) as [w'|[db' out']]; reflexivity.
Qed.

Lemma deduct_order_items_resolvable order system_user db0 items :
  forall w1 w2,
    fst w1 = fst w2 -> unique_ids (fst w1) ->
    map Ingredient.name (ingredients (fst w1))
    = map Ingredient.name (ingredients db0) ->
    fst (deduct_order_items order system_user items w1)
    = fst (deduct_order_items order system_user (resolvable_items db0 items)
             w2).
Proof.
  induction items as [|it items IH]; intros w1 w2 Hdb Hu Hn; [exact Hdb|].
  simpl deduct_order_items at 1.
  set (w1' := deduct_ingredients_for_cake (OrderItem.cake it)
                (OrderItem.quantity it) order system_user w1).
  assert (H1 : fst w1'
               = fst (world_of
                        (deduct_entries (Cake.name (OrderItem.cake it))
                           (OrderItem.quantity it) (Order.order_number order)
                           system_user
                           (filter (resolves db0)
                                   (Cake.ingredients (OrderItem.cake it)))
                           w2))).
  { unfold w1'. rewrite deduct_ingredients_for_cake_db.
    now apply deduct_entries_resolvable. }
  destruct (steps_names _ _
              (deduct_ingredients_for_cake_steps (OrderItem.cake it)
                 (OrderItem.quantity it) order system_user w1) Hu)
    as [Hu' Hn'].
  fold w1' in Hu', Hn'.
  unfold resolvable_items. simpl map. simpl filter.
  unfold has_recipe at 1. simpl Cake.ingredients.
  destruct (filter (resolves db0) (Cake.ingredients (OrderItem.cake it)))
    as [|d l] eqn:F.
  - apply IH; [exact H1 | exact Hu' | congruence].
  - simpl deduct_order_items.
    apply IH; [|exact Hu' | congruence].
    rewrite H1, deduct_ingredients_for_cake_db. simpl. rewrite F. reflexivity.
Qed.

(** C9.  An order item whose cake has no recipe is skipped with a warning,
    a recipe entry whose ingredient name matches no ingredient is skipped
    with a warning, and in both cases the loop goes on with the lines that
    follow; the database that the processing of an order leaves is the one
    that the lines that resolve leave on their own. *)
Theorem unresolved_lines_are_skipped (order : Order.t) (system_user : User.t) :
  (forall item rest w,
      Cake.ingredients (OrderItem.cake item) = [] ->
      deduct_order_items order system_user (item :: rest) w
      = deduct_order_items order system_user rest
          (fst w,
           snd w ++ [WarnNoIngredients (Cake.name (OrderItem.cake item))]))
  /\ (forall cake_name quantity d rest db out,
        IngredientData.name d <> ""%string ->
        0 < IngredientData.quantity d ->
        ingredients_named (IngredientData.name d) db = [] ->
        deduct_entries cake_name quantity (Order.order_number order)
          system_user (d :: rest) (db, out)
        = deduct_entries cake_name quantity (Order.order_number order)
            system_user rest
            (db, out ++ [WarnIngredientNotFound (IngredientData.name d)]))
  /\ (forall items db out,
        unique_ids db ->
        fst (deduct_order_items order system_user items (db, out))
        = fst (deduct_order_items order system_user
                 (resolvable_items db items) (db, out))).
Proof.
  split; [|split].
  - intros item rest w H. simpl. unfold deduct_ingredients_for_cake.
    rewrite H. reflexivity.
  - intros cake_name quantity d rest db out Hname Hq Hnone. simpl.
    unfold deduct_entry. apply String.eqb_neq in Hname. rewrite Hname.
    rewrite (Qle_bool_false _ _ Hq). simpl orb. cbv iota.
    rewrite Hnone. reflexivity.
  - intros items db out Hu.
    now apply deduct_order_items_resolvable.
Qed.

Lemma unique_ids_fixture : unique_ids Fixture.db.
Proof.
  unfold unique_ids. simpl.
  repeat constructor; simpl; intuition discriminate.
Qed.

Lemma unresolved_lines_are_skipped_witness :
  resolvable_items Fixture.db (Order.items Fixture.order_mixed)
  = [OrderItem.mk (Cake.mk "Cocoa Cake" [IngredientData.mk "FLOUR" 2 "kg"]) 1;
     OrderItem.mk Fixture.small_cake 3]
  /\ fst (deduct_order_items Fixture.order_mixed Fixture.admin
            (Order.items Fixture.order_mixed) (Fixture.db, []))
     = fst (deduct_order_items Fixture.order_mixed Fixture.admin
              (resolvable_items Fixture.db (Order.items Fixture.order_mixed))
              (Fixture.db, []))
  /\ option_map Ingredient.current_stock
       (get_ingredient 1
          (fst (deduct_order_items Fixture.order_mixed Fixture.admin
                  (Order.items Fixture.order_mixed) (Fixture.db, []))))
     = Some 2.
Proof.
  split; [reflexivity|]. split; [|vm_compute; reflexivity].
  apply (proj2 (proj2 (unresolved_lines_are_skipped Fixture.order_mixed
                         Fixture.admin))).
  apply unique_ids_fixture.
Defined.

(** * Further properties *)

(** ** Replaying the ledger *)

Lemma net_change_app pk a b :
  net_change pk (a ++ b) == net_change pk a + net_change pk b.
Proof.
  induction a as [|m a IH]; simpl.
  - lra.
  - destruct (Z.eqb (StockMovement.ingredient m) pk); rewrite IH; lra.
Qed.

Lemma step_replay db db' :
  ledger_step db db' -> unique_ids db ->
  exists added,
    movements db' = movements db ++ added
    /\ forall r', In r' (ingredients db') ->
         exists r, In r (ingredients db)
                   /\ Ingredient.id r = Ingredient.id r'
                   /\ Ingredient.current_stock r'
                      == Ingredient.current_stock r
                         + net_change (Ingredient.id r) added.
Proof.
  intros [ing ing' m Hin Hid Hname Hst Hm Hprev Hq Hc Hnn Hi Hmv | Hi Hmv] Hu.
  - exists [m]. split; [exact Hmv|].
    intros r' Hr'. rewrite Hi in Hr'. simpl in Hr'.
    apply in_map_iff in Hr'. destruct Hr' as [r [Hr Hrin]].
    exists r. split; [exact Hrin|].
    destruct (Z.eqb (Ingredient.id r) (Ingredient.id ing')) eqn:E.
    + subst r'. apply Z.eqb_eq in E. split; [exact E|].
      assert (r = ing)
        by (apply (unique_ids_same_row db); auto; congruence).
      subst r. simpl. rewrite Hm, Z.eqb_refl.
      rewrite Hst. unfold consistent in Hc. rewrite Hc, Hprev. lra.
    + subst r'. split; [reflexivity|]. simpl.
      rewrite Hm, <- Hid, Z.eqb_sym, E. lra.
  - exists []. split; [now rewrite app_nil_r|].
    intros r' Hr'. rewrite Hi in Hr'. exists r'.
    split; [exact Hr'|]. split; [reflexivity|]. simpl. lra.
Qed.

Lemma steps_replay db db' :
  ledger_steps db db' -> unique_ids db ->
  exists added,
    movements db' = movements db ++ added
    /\ forall r', In r' (ingredients db') ->
         exists r, In r (ingredients db)
                   /\ Ingredient.id r = Ingredient.id r'
                   /\ Ingredient.current_stock r'
                      == Ingredient.current_stock r
                         + net_change (Ingredient.id r) added.
Proof.
  induction 1 as [|a b c Hab IH Hbc]; intro Hu.
  - exists []. split; [now rewrite app_nil_r|].
    intros r' Hr'. exists r'. split; [exact Hr'|].
    split; [reflexivity|]. simpl. lra.
  - destruct (IH Hu) as [added1 [Hmv1 H1]].
    destruct (steps_names _ _ Hab Hu) as [Hu' _].
    destruct (step_replay _ _ Hbc Hu') as [added2 [Hmv2 H2]].
    exists (added1 ++ added2). split.
    + rewrite Hmv2, Hmv1, app_assoc. reflexivity.
    + intros r' Hr'.
      destruct (H2 r' Hr') as (r2 & Hr2 & Hid2 & Hs2).
      destruct (H1 r2 Hr2) as (r1 & Hr1 & Hid1 & Hs1).
      exists r1. split; [exact Hr1|]. split; [congruence|].
      rewrite Hs2, Hs1, net_change_app, Hid1. lra.
Qed.

(** X1.  Whatever orders are saved, amounts deducted by hand and receipts
    taken in, the balance of every ingredient is the balance it started
    from plus the signed quantities of the movements that were appended
    for it. *)
Theorem ledger_replay (ops : list Op) (w : World) :
  unique_ids (fst w) ->
  exists added,
    movements (fst (run ops w)) = movements (fst w) ++ added
    /\ forall r', In r' (ingredients (fst (run ops w))) ->
         exists r, In r (ingredients (fst w))
                   /\ Ingredient.id r = Ingredient.id r'
                   /\ Ingredient.current_stock r'
                      == Ingredient.current_stock r
                         + net_change (Ingredient.id r) added.
Proof. intro Hu. apply steps_replay; [apply run_steps | exact Hu]. Qed.

Lemma ledger_replay_witness :
  exists added,
    movements
      (fst (run [SaveOrder (Instance.load Fixture.order_small);
                 DeductStock Fixture.admin 1 (JNum 3) "spill" "20260101";
                 ReceiveItems Fixture.admin 1 [ItemData.mk 11 50] "2026-01-02"]
                (Fixture.db, [])))
    = movements Fixture.db ++ added
    /\ net_change 1 added == 45.
Proof.
  destruct (ledger_replay
              [SaveOrder (Instance.load Fixture.order_small);
               DeductStock Fixture.admin 1 (JNum 3) "spill" "20260101";
               ReceiveItems Fixture.admin 1 [ItemData.mk 11 50] "2026-01-02"]
              (Fixture.db, []) unique_ids_fixture) as [added [Hmv _]].
  exists added. split; [exact Hmv|].
  vm_compute in Hmv. subst added. vm_compute. reflexivity.
Defined.

(** ** Deductions only lower balances *)

Lemma lowered_refl r : lowered r r.
Proof. unfold lowered. repeat split; lra. Qed.

Lemma lowered_trans a b c : lowered a b -> lowered b c -> lowered a c.
Proof.
  unfold lowered. intros (?&?&?&?&?&?) (?&?&?&?&?&?).
  repeat split; try congruence. lra.
Qed.

Lemma Forall2_map_r {A} (R : A -> A -> Prop) (f : A -> A) l :
  (forall x, In x l -> R x (f x)) -> Forall2 R l (map f l).
Proof.
  induction l as [|x l IH]; intro H; simpl; constructor.
  - apply H. now left.
  - apply IH. intros y Hy. apply H. now right.
Qed.

Lemma Forall2_trans {A} (R : A -> A -> Prop) :
  (forall a b c, R a b -> R b c -> R a c) ->
  forall l1 l2 l3, Forall2 R l1 l2 -> Forall2 R l2 l3 -> Forall2 R l1 l3.
Proof.
  intros HR l1 l2 l3 H12. revert l3.
  induction H12 as [|a b l1 l2 Hab H12 IH]; intros l3 H23;
    inversion H23; subst; constructor; eauto.
Qed.

Lemma Forall2_In_l {A} (R : A -> A -> Prop) l l' x :
  Forall2 R l l' -> In x l -> exists y, In y l' /\ R x y.
Proof.
  induction 1 as [|a b l l' Hab H IH]; intros Hin; [destruct Hin|].
  destruct Hin as [->|Hin].
  - exists b. split; [now left | exact Hab].
  - destruct (IH Hin) as [y [Hy HR]]. exists y. split; [now right | exact HR].
Qed.

Lemma only_lowers_refl db : only_lowers db db.
Proof.
  unfold only_lowers. repeat split.
  rewrite <- (map_id (ingredients db)) at 2.
  apply Forall2_map_r. intros. apply lowered_refl.
Qed.

Lemma only_lowers_trans a b c :
  only_lowers a b -> only_lowers b c -> only_lowers a c.
Proof.
  unfold only_lowers. intros (Hab & ? & ? & ?) (Hbc & ? & ? & ?).
  repeat split; try congruence.
  eapply Forall2_trans; eauto. apply lowered_trans.
Qed.

Lemma only_lowers_ids db db' :
  only_lowers db db' ->
  map Ingredient.id (ingredients db') = map Ingredient.id (ingredients db).
Proof.
  intros [H _]. induction H as [|a b l l' Hab H IH]; [reflexivity|].
  simpl. destruct Hab as [Hid _]. congruence.
Qed.

Lemma only_lowers_unique db db' :
  only_lowers db db' -> unique_ids db -> unique_ids db'.
Proof.
  intros H Hu. unfold unique_ids. now rewrite (only_lowers_ids _ _ H).
Qed.

(** Writing back a row with a lower balance. *)
Lemma save_only_lowers ing ing' l db :
  unique_ids db -> In ing (ingredients db) -> lowered ing ing' ->
  only_lowers db (with_movements l (save_ingredient ing' db)).
Proof.
  intros Hu Hin Hl. unfold only_lowers. simpl. repeat split.
  apply Forall2_map_r. intros r Hr.
  destruct (Z.eqb (Ingredient.id r) (Ingredient.id ing')) eqn:E.
  - apply Z.eqb_eq in E.
    assert (r = ing).
    { apply (unique_ids_same_row db); auto.
      destruct Hl as [Hid _]. congruence. }
    subst r. exact Hl.
  - apply lowered_refl.
Qed.

Lemma deduct_entry_only_lowers cake_name quantity order_number system_user d w :
  unique_ids (fst w) ->
  only_lowers (fst w)
    (fst (world_of (deduct_entry cake_name quantity order_number system_user
                      d w))).
Proof.
  destruct w as [db out]. simpl fst at 1 2. intro Hu.
  destruct (deduct_entry_effect cake_name quantity order_number system_user
              d db out) as [out' [H | H]].
  - rewrite H. apply only_lowers_refl.
  - destruct H as (ing & others & t & notes & Hn & Hpos & Hle & H).
    rewrite H. simpl.
    apply (save_only_lowers ing);
      [exact Hu | eapply ingredients_named_In; eauto |].
    unfold lowered. simpl. repeat split.
    rewrite max_zero_of_nonneg; lra.
Qed.

Lemma deduct_entries_only_lowers cake_name quantity order_number system_user
      l w :
  unique_ids (fst w) ->
  only_lowers (fst w)
    (fst (world_of (deduct_entries cake_name quantity order_number system_user
                      l w))).
Proof.
  revert w. induction l as [|d l IH]; intros w Hu; simpl.
  - apply only_lowers_refl.
  - pose proof (deduct_entry_only_lowers cake_name quantity order_number
                  system_user d w Hu) as H1.
    destruct (deduct_entry cake_name quantity order_number system_user d w)
      as [w'|w']; simpl in *; [|exact H1].
    eapply only_lowers_trans; [exact H1|].
    apply IH. eapply only_lowers_unique; eauto.
Qed.

Lemma deduct_order_items_only_lowers order system_user items w :
  unique_ids (fst w) ->
  only_lowers (fst w) (fst (deduct_order_items order system_user items w)).
Proof.
  revert w. induction items as [|it items IH]; intros w Hu; simpl.
  - apply only_lowers_refl.
  - assert (H1 : only_lowers (fst w)
                   (fst (deduct_ingredients_for_cake (OrderItem.cake it)
                           (OrderItem.quantity it) order system_user w))).
    { rewrite deduct_ingredients_for_cake_db.
      now apply deduct_entries_only_lowers. }
    eapply only_lowers_trans; [exact H1|].
    apply IH. eapply only_lowers_unique; eauto.
Qed.

Lemma order_confirmation_only_lowers (instance : Instance.t) (w : World) :
  unique_ids (fst w) ->
  only_lowers (fst w)
    (fst (snd (deduct_ingredients_on_order_confirmation instance w))).
Proof.
  intro Hu. unfold deduct_ingredients_on_order_confirmation.
  destruct (qualifying _); [|apply only_lowers_refl].
  destruct (Instance._ingredients_deducted instance); [apply only_lowers_refl|].
  destruct (find_system_user (fst w)); [|apply only_lowers_refl].
  simpl. now apply deduct_order_items_only_lowers.
Qed.

(** X2.  Saving an order touches the stock only downwards: every
    ingredient row keeps its key, name, unit, threshold and unit cost and
    gets a balance that is not larger than before; users, purchase orders
    and purchase-order lines are left as they were. *)
Theorem order_save_only_lowers (instance : Instance.t) (w : World) :
  unique_ids (fst w) ->
  only_lowers (fst w)
    (fst (snd (deduct_ingredients_on_order_confirmation instance w))).
Proof. apply order_confirmation_only_lowers. Qed.

Lemma order_save_only_lowers_witness :
  only_lowers Fixture.db
    (fst (snd (deduct_ingredients_on_order_confirmation
                 (Instance.load Fixture.order_mixed) (Fixture.db, [])))).
Proof.
  apply (order_save_only_lowers (Instance.load Fixture.order_mixed)
           (Fixture.db, [])).
  apply unique_ids_fixture.
Defined.

(** ** Deductions that the balance covers *)

(** X3.  When the balance covers what a recipe entry asks for, the
    order-driven deduction takes the whole quantity (quantity per cake
    times cakes ordered): the balance goes down by exactly that much, one
    'out' movement of that quantity is written with the order number as
    reference, and no shortage warning is printed. *)
Theorem order_deduction_in_full
    cake_name quantity order_number system_user d db out ing others :
  IngredientData.name d <> ""%string ->
  0 < IngredientData.quantity d ->
  ingredients_named (IngredientData.name d) db = ing :: others ->
  0 < IngredientData.quantity d * inject_Z quantity ->
  IngredientData.quantity d * inject_Z quantity
  <= Ingredient.current_stock ing ->
  let need := IngredientData.quantity d * inject_Z quantity in
  let stock := Ingredient.current_stock ing in
  exists new_stock notes,
    new_stock == stock - need
    /\ deduct_entry cake_name quantity order_number system_user d (db, out)
       = Done
           (with_movements
              (movements db
               ++ [StockMovement.mk (Ingredient.id ing) MoveOut need stock
                     new_stock (Ingredient.unit_cost ing)
                     (need * Ingredient.unit_cost ing)
                     ("ORDER-" ++ order_number) notes (User.id system_user)])
              (save_ingredient (Ingredient.set_current_stock new_stock ing) db),
            match others with
            | [] => out
            | _ :: _ =>
                out ++ [WarnMultipleIngredients (IngredientData.name d)]
            end
            ++ [Deducted need (IngredientData.unit d) (IngredientData.name d)
                  order_number]).
Proof.
  intros Hname Hq Hnamed Hpos Hle need stock.
  exists (Dec.max 0 (stock - need)). eexists.
  split; [apply max_zero_of_nonneg; unfold need, stock; lra|].
  unfold deduct_entry.
  apply String.eqb_neq in Hname. rewrite Hname.
  rewrite (Qle_bool_false _ _ Hq). simpl orb. cbv iota.
  rewrite Hnamed.
  pose proof Hle as Hle'. apply ltb_ge in Hle'. rewrite Hle'.
  pose proof Hpos as Hpos'. apply ltb_lt in Hpos'. rewrite Hpos'.
  rewrite create_Some.
  - reflexivity.
  - exact Hpos.
  - unfold consistent. simpl. rewrite max_zero_of_nonneg; lra.
Qed.

Lemma order_deduction_in_full_witness :
  exists new_stock notes,
    new_stock == 10 - 2 * inject_Z 3
    /\ deduct_entry "Vanilla Cake" 3 "A18" Fixture.admin
         (IngredientData.mk "Flour" 2 "kg") (Fixture.db, [])
       = Done
           (with_movements
              [StockMovement.mk 1 MoveOut (2 * inject_Z 3) 10 new_stock 3
                 (2 * inject_Z 3 * 3) "ORDER-A18" notes 7]
              (save_ingredient
                 (Ingredient.set_current_stock new_stock Fixture.flour)
                 Fixture.db),
            [Deducted (2 * inject_Z 3) "kg" "Flour" "A18"]).
Proof.
  destruct (order_deduction_in_full "Vanilla Cake" 3 "A18" Fixture.admin
              (IngredientData.mk "Flour" 2 "kg") Fixture.db []
              Fixture.flour [])
    as (new_stock & notes & Hnew & Hrun).
  - discriminate.
  - reflexivity.
  - reflexivity.
  - reflexivity.
  - discriminate.
  - exists new_stock, notes. split; [exact Hnew | exact Hrun].
Defined.

(** ** The manual endpoint, accepted requests *)





(** ** The in-memory marker *)

(** X5.  Once the handler has processed an order object, that object is
    never processed again, whatever has happened to the database in
    between: a further save of it changes nothing and prints nothing.  An
    object that met no admin or inventory manager is not marked: its save
    changed no data, and a later save runs the deduction as on a fresh
    object. *)
Theorem marked_object_is_left_alone (instance : Instance.t) (w : World) :
  qualifying (Order.order_status (Instance.row instance)) = true ->
  let r := deduct_ingredients_on_order_confirmation instance w in
  (find_system_user (fst w) <> None ->
   Instance.row (fst r) = Instance.row instance
   /\ Instance._ingredients_deducted (fst r) = true
   /\ forall w2,
        deduct_ingredients_on_order_confirmation (fst r) w2 = (fst r, w2))
  /\ (find_system_user (fst w) = None ->
      Instance._ingredients_deducted instance = false ->
      fst r = instance /\ fst (snd r) = fst w
      /\ forall w2,
           deduct_ingredients_on_order_confirmation (fst r) w2
           = deduct_ingredients_on_order_confirmation
               (Instance.load (Instance.row instance)) w2).
Proof.
  intros Hq r. subst r. unfold deduct_ingredients_on_order_confirmation.
  rewrite Hq. split.
  - intro Hu.
    destruct (Instance._ingredients_deducted instance) eqn:Hd.
    + simpl. split; [reflexivity|]. split; [exact Hd|].
      intro w2. rewrite Hq, Hd. reflexivity.
    + destruct (find_system_user (fst w)) as [u|]; [|contradiction].
      simpl. split; [reflexivity|]. split; [reflexivity|].
      intro w2. rewrite Hq. reflexivity.
  - intros Hu Hd. rewrite Hd, Hu. simpl.
    split; [reflexivity|]. split; [reflexivity|].
    intro w2. destruct instance as [row flag]. simpl in *. subst flag.
    reflexivity.
Qed.

Lemma marked_object_is_left_alone_witness :
  let r := deduct_ingredients_on_order_confirmation
             (Instance.load Fixture.order_small) (Fixture.db, []) in
  Instance._ingredients_deducted (fst r) = true
  /\ deduct_ingredients_on_order_confirmation (fst r) (snd r) = (fst r, snd r).
Proof.
  destruct (marked_object_is_left_alone (Instance.load Fixture.order_small)
              (Fixture.db, []) eq_refl) as [H _].
  destruct H as (_ & Hmark & Hnext); [discriminate|].
  split; [exact Hmark | apply Hnext].
Defined.

(** ** A receipt followed by a deduction *)



(** ** What a receipt leaves alone *)

Lemma NoDup_map_same {A} (key : A -> Z) (l : list A) a b :
  NoDup (map key l) -> In a l -> In b l -> key a = key b -> a = b.
Proof.
  induction l as [|x l IH]; intros Hnd Ha Hb Hk; [destruct Ha|].
  simpl in Hnd. inversion Hnd as [|? ? Hnotin Hnd']. subst.
  destruct Ha as [->|Ha], Hb as [->|Hb].
  - reflexivity.
  - exfalso. apply Hnotin. rewrite Hk. now apply in_map.
  - exfalso. apply Hnotin. rewrite <- Hk. now apply in_map.
  - now apply IH.
Qed.

Lemma filter_map_same {A} (p : A -> bool) (f : A -> A) l :
  (forall r, In r l -> f r = r \/ (p r = false /\ p (f r) = false)) ->
  filter p (map f l) = filter p l.
Proof.
  induction l as [|x l IH]; intro H; [reflexivity|].
  simpl. rewrite IH by (intros r Hr; apply H; now right).
  destruct (H x (or_introl eq_refl)) as [-> | [H1 H2]]; [reflexivity|].
  rewrite H1, H2. reflexivity.
Qed.

Lemma receive_item_other_orders user purchase_order item_data db other :
  unique_line_ids db -> other <> PurchaseOrder.id purchase_order ->
  let db' := db_of (receive_item user purchase_order item_data db) in
  items_of other db' = items_of other db
  /\ unique_line_ids db'
  /\ users db' = users db.
Proof.
  intros Hu Hother. cbv zeta. unfold receive_item.
  destruct (get_po_item _ _ db) as [it|] eqn:Hit; [|simpl; auto].
  set (it' := PurchaseOrderItem.set_received_quantity _ it).
  unfold get_po_item in Hit. apply find_some in Hit.
  destruct Hit as [Hin Hkey]. apply andb_true_iff in Hkey.
  destruct Hkey as [_ Hpo]. apply Z.eqb_eq in Hpo.
  assert (H1 : items_of other (save_po_item it' db) = items_of other db
               /\ unique_line_ids (save_po_item it' db)).
  { split.
    - unfold items_of.
      change (purchase_order_items (save_po_item it' db))
        with (map (fun r => if Z.eqb (PurchaseOrderItem.id r)
                                     (PurchaseOrderItem.id it')
                            then it' else r)
                  (purchase_order_items db)).
      apply filter_map_same. intros r Hr. cbv beta.
      destruct (Z.eqb (PurchaseOrderItem.id r) (PurchaseOrderItem.id it'))
        eqn:E; [|now left].
      right. apply Z.eqb_eq in E.
      assert (r = it)
        by (apply (NoDup_map_same PurchaseOrderItem.id
                     (purchase_order_items db)); auto).
      subst r. change (PurchaseOrderItem.purchase_order it')
        with (PurchaseOrderItem.purchase_order it). rewrite Hpo.
      split; apply Z.eqb_neq; congruence.
    - unfold unique_line_ids.
      change (purchase_order_items (save_po_item it' db))
        with (map (fun r => if Z.eqb (PurchaseOrderItem.id r)
                                     (PurchaseOrderItem.id it')
                            then it' else r)
                  (purchase_order_items db)).
      rewrite map_map.
      erewrite map_ext_in; [exact Hu|].
      intros r _. cbv beta.
      destruct (Z.eqb (PurchaseOrderItem.id r) (PurchaseOrderItem.id it'))
        eqn:E; [|reflexivity].
      apply Z.eqb_eq in E. symmetry. exact E. }
  destruct (Dec.ltb 0 _); [|simpl; tauto].
  destruct (StockMovement_create_in _ _ _ _ _ _ _) as [db2|] eqn:Hc;
    [|simpl; tauto].
  apply create_in_inv in Hc. destruct Hc as (ing' & l & _ & ->).
  simpl db_of. tauto.
Qed.

Lemma receive_loop_other_orders user purchase_order received_items db other :
  unique_line_ids db -> other <> PurchaseOrder.id purchase_order ->
  let db' := db_of (receive_loop user purchase_order received_items db) in
  items_of other db' = items_of other db /\ users db' = users db.
Proof.
  revert db. induction received_items as [|x l IH]; intros db Hu Hother;
    cbv zeta; simpl; [auto|].
  destruct (receive_item_other_orders user purchase_order x db other Hu Hother)
    as (H1 & Hu1 & Hus1).
  destruct (receive_item user purchase_order x db) as [db1|db1];
    simpl in *; [|auto].
  destruct (IH db1 Hu1 Hother) as [H2 Hus2]. split; congruence.
Qed.

(** X7.  A receipt for one purchase order leaves the lines of every other
    purchase order as they were, whatever item ids the request carries;
    the rows of the other purchase orders and the users are not touched
    either. *)
Theorem receipt_leaves_other_orders_alone
    user pk received_items today db other :
  unique_line_ids db -> other <> pk ->
  let db' := snd (receive_items user pk received_items today db) in
  items_of other db' = items_of other db
  /\ users db' = users db
  /\ forall p, In p (purchase_orders db) -> PurchaseOrder.id p <> pk ->
               In p (purchase_orders db').
Proof.
  intros Hu Hother. cbv zeta. unfold receive_items.
  destruct (find _ _) as [po|] eqn:Hf; [|simpl; auto].
  apply find_some in Hf. destruct Hf as [_ Hid]. apply Z.eqb_eq in Hid.
  rewrite <- Hid in Hother.
  destruct (receive_loop_other_orders user po received_items db other Hu Hother)
    as [H1 H2].
  assert (Hpo : purchase_orders (db_of (receive_loop user po received_items db))
                = purchase_orders db).
  { clear. revert db. induction received_items as [|x l IH]; intro db; simpl;
      [reflexivity|].
    destruct (receive_item_frame user po x db) as (Hp & _ & _).
    destruct (receive_item user po x db) as [db1|db1]; simpl in *;
      [rewrite IH|]; exact Hp. }
  destruct (receive_loop user po received_items db) as [db1|db1]; simpl in *.
  - destruct (all_received (PurchaseOrder.id po) db1); simpl.
    + split; [exact H1|]. split; [exact H2|].
      intros p Hp Hne. rewrite Hpo. apply in_map_iff. exists p.
      split; [|exact Hp].
      destruct (Z.eqb (PurchaseOrder.id p) (PurchaseOrder.id po)) eqn:E;
        [|reflexivity].
      apply Z.eqb_eq in E. congruence.
    + split; [exact H1|]. split; [exact H2|]. intros p Hp _. now rewrite Hpo.
  - split; [exact H1|]. split; [exact H2|]. intros p Hp _. now rewrite Hpo.
Qed.

Lemma unique_line_ids_scenario : unique_line_ids Scenario.db.
Proof.
  unfold unique_line_ids. simpl.
  repeat constructor; simpl; intuition discriminate.
Qed.

Lemma receipt_leaves_other_orders_alone_witness :
  items_of 2
    (snd (receive_items Fixture.admin 1 [ItemData.mk 21 5; ItemData.mk 11 50]
            "2026-01-02" Scenario.db))
  = [Scenario.line_eggs].
Proof.
  destruct (receipt_leaves_other_orders_alone Fixture.admin 1
              [ItemData.mk 21 5; ItemData.mk 11 50] "2026-01-02" Scenario.db 2
              unique_line_ids_scenario) as [H _].
  - discriminate.
  - rewrite H. reflexivity.
Defined.

(** ** A purchase order without lines *)

Lemma receive_loop_no_lines user purchase_order received_items db :
  items_of (PurchaseOrder.id purchase_order) db = [] ->
  receive_loop user purchase_order received_items db = inl db.
Proof.
  intro Hnone. induction received_items as [|x l IH]; [reflexivity|].
  simpl. unfold receive_item.
  assert (Hget : get_po_item (ItemData.item_id x)
                   (PurchaseOrder.id purchase_order) db = None).
  { unfold get_po_item.
    destruct (find _ (purchase_order_items db)) as [it|] eqn:F; [|reflexivity].
    exfalso. apply find_some in F. destruct F as [Hin Hkey].
    apply andb_true_iff in Hkey. destruct Hkey as [_ Hpo].
    assert (Hit : In it (items_of (PurchaseOrder.id purchase_order) db)).
    { unfold items_of. apply filter_In. auto. }
    rewrite Hnone in Hit. destruct Hit. }
  rewrite Hget. exact IH.
Qed.

(** X8.  A purchase order that has no lines is marked 'received', with
    the day of the call as its delivery date, by any receipt addressed to
    it, the empty one included: no entry of the request matches a line and
    the test that every line is complete holds of no lines at all. *)
Theorem purchase_order_without_lines_is_received
    user pk received_items today db po :
  find (fun p => Z.eqb (PurchaseOrder.id p) pk)
       (purchase_order_queryset user db) = Some po ->
  items_of pk db = [] ->
  receive_items user pk received_items today db
  = (HTTP_200_OK ItemsReceived,
     save_purchase_order
       (PurchaseOrder.mk pk (PurchaseOrder.po_number po) "received"
          (Some today))
       db).
Proof.
  intros Hfind Hnone. unfold receive_items. rewrite Hfind.
  pose proof (find_some _ _ Hfind) as [_ Hid]. apply Z.eqb_eq in Hid.
  rewrite <- Hid in Hnone.
  rewrite (receive_loop_no_lines user po received_items db Hnone).
  unfold all_received. rewrite Hnone. simpl. rewrite Hid. reflexivity.
Qed.

Lemma purchase_order_without_lines_is_received_witness :
  option_map PurchaseOrder.status
    (find (fun p => Z.eqb (PurchaseOrder.id p) 3)
          (purchase_orders
             (snd (receive_items Fixture.admin 3 [] "2026-01-02" Scenario.db))))
  = Some "received"%string.
Proof.
  rewrite (purchase_order_without_lines_is_received Fixture.admin 3 []
             "2026-01-02" Scenario.db Scenario.empty_po eq_refl eq_refl).
  reflexivity.
Defined.

(** ** More on the availability check *)

Lemma available_Forall recipe servings :
  Availability.available (check_availability recipe servings) = true <->
  Forall (fun ri =>
            RecipeIngredient.quantity ri * inject_Z servings
            <= Ingredient.current_stock (RecipeIngredient.ingredient ri))
         (Recipe.ingredients recipe).
Proof.
  unfold check_availability. simpl. rewrite Forall_forall. split.
  - intros H ri Hin.
    destruct (Qlt_le_dec
                (Ingredient.current_stock (RecipeIngredient.ingredient ri))
                (RecipeIngredient.quantity ri * inject_Z servings))
      as [Hlt | Hle]; [|exact Hle].
    exfalso.
    assert (Hu : exists u,
               In u (unavailable servings (Recipe.ingredients recipe))).
    { eexists. apply unavailable_In. exists ri. eauto. }
    destruct Hu as [u Hu].
    destruct (unavailable servings (Recipe.ingredients recipe));
      [destruct Hu | discriminate].
  - intro H.
    destruct (unavailable servings (Recipe.ingredients recipe)) as [|u l] eqn:E;
      [reflexivity|].
    exfalso.
    assert (Hu : In u (unavailable servings (Recipe.ingredients recipe)))
      by (rewrite E; now left).
    apply unavailable_In in Hu. destruct Hu as [ri [Hin [Hlt _]]].
    specialize (H ri Hin). simpl in H. lra.
Qed.

Lemma unavailable_length servings l :
  (List.length (unavailable servings l) <= List.length l)%nat.
Proof.
  induction l as [|x l IH]; [apply Nat.le_refl|].
  cbn [unavailable]. destruct (Dec.ltb _ _); cbn [List.length]; lia.
Qed.

(** X9.  For a recipe without a negative quantity, a number of servings
    that is available stays available when it is lowered, and every
    shortfall that the check reports is positive; the entries reported
    are never more than the recipe has ingredients. *)
Theorem availability_is_monotone (recipe : Recipe.t) (m n : Z) :
  Forall (fun ri => 0 <= RecipeIngredient.quantity ri)
         (Recipe.ingredients recipe) ->
  (m <= n)%Z ->
  (Availability.available (check_availability recipe n) = true ->
   Availability.available (check_availability recipe m) = true)
  /\ (forall u,
        In u (Availability.unavailable_ingredients
                (check_availability recipe n)) ->
        0 < Unavailable.shortage u)
  /\ (List.length (Availability.unavailable_ingredients
                     (check_availability recipe n))
      <= List.length (Recipe.ingredients recipe))%nat.
Proof.
  intros Hq Hmn. split; [|split].
  - intro Hn. apply available_Forall in Hn. apply available_Forall.
    rewrite Forall_forall in *. intros ri Hin.
    specialize (Hn ri Hin). specialize (Hq ri Hin). simpl in *.
    apply Qle_trans with (RecipeIngredient.quantity ri * inject_Z n);
      [|exact Hn].
    rewrite !(Qmult_comm (RecipeIngredient.quantity ri)).
    apply Qmult_le_compat_r; [|exact Hq].
    rewrite <- Zle_Qle. exact Hmn.
  - intros u Hu. simpl in Hu. apply unavailable_In in Hu.
    destruct Hu as [ri [_ [Hlt ->]]]. cbn [Unavailable.shortage].
    set (need := RecipeIngredient.quantity ri * inject_Z n) in *.
    clearbody need. lra.
  - apply unavailable_length.
Qed.

Lemma availability_is_monotone_witness :
  Availability.available (check_availability Fixture.chocolate_cake 1) = true.
Proof.
  apply (proj1 (availability_is_monotone Fixture.chocolate_cake 1 3
                  ltac:(repeat constructor; simpl; discriminate)
                  ltac:(lia))).
  reflexivity.
Defined.

(** ** The low-stock list and the dashboard *)

Lemma deduct_stock_only_lowers user pk amount reason now db :
  unique_ids db ->
  only_lowers db (snd (deduct_stock user pk amount reason now db)).
Proof.
  intro Hu. unfold deduct_stock.
  destruct (ingredient_queryset user db) as [|q0 qs] eqn:Eq;
    [apply only_lowers_refl|].
  destruct (find _ (q0 :: qs)) as [ingredient|] eqn:Ef;
    [|apply only_lowers_refl].
  destruct (negb (User.is_admin user || _ || _)); [apply only_lowers_refl|].
  destruct (negb (truthy amount)); [apply only_lowers_refl|].
  destruct (float amount) as [a|]; [|apply only_lowers_refl].
  destruct (Qle_bool a 0) eqn:Ha; [apply only_lowers_refl|].
  destruct (Dec.ltb (Ingredient.current_stock ingredient) a) eqn:Hs;
    [apply only_lowers_refl|].
  assert (Hpos : 0 < a).
  { apply Qnot_le_lt. intro L. apply Qle_bool_iff in L. congruence. }
  rewrite create_Some; [|exact Hpos|apply manual_movement_consistent].
  simpl snd. apply (save_only_lowers ingredient); [exact Hu | |].
  - apply find_some in Ef. destruct Ef as [Hin _].
    unfold ingredient_queryset in Eq.
    destruct (_ || _ || _)%bool; [|discriminate]. rewrite Eq. exact Hin.
  - unfold lowered. simpl. repeat split. lra.
Qed.

Lemma lowered_is_low r r' : lowered r r' -> is_low r = true -> is_low r' = true.
Proof.
  unfold is_low. intros (_ & _ & _ & Hmin & _ & Hle) H.
  apply Qle_bool_iff in H. apply Qle_bool_iff. rewrite Hmin. lra.
Qed.

Lemma only_lowers_low_stock viewer db db' r :
  only_lowers db db' -> In r (low_stock viewer db) ->
  exists r', In r' (low_stock viewer db') /\ lowered r r'.
Proof.
  intros [H _] Hr. unfold low_stock, ingredient_queryset in *.
  destruct (_ || _ || _)%bool; [|destruct Hr].
  apply filter_In in Hr. destruct Hr as [Hin Hlow].
  destruct (Forall2_In_l _ _ _ _ H Hin) as [r' [Hin' Hl]].
  exists r'. split; [|exact Hl].
  apply filter_In. split; [exact Hin'|]. eapply lowered_is_low; eauto.
Qed.

(** X10.  An ingredient that is on the low-stock list stays on it through
    every order save and every call of the manual deduction endpoint,
    with the same key, name and threshold and a balance that is not
    larger. *)
Theorem deductions_keep_low_stock (viewer : User.t) :
  (forall instance w r,
      unique_ids (fst w) ->
      In r (low_stock viewer (fst w)) ->
      exists r',
        In r' (low_stock viewer
                 (fst (snd (deduct_ingredients_on_order_confirmation
                              instance w))))
        /\ lowered r r')
  /\ (forall user pk amount reason now db r,
        unique_ids db ->
        In r (low_stock viewer db) ->
        exists r',
          In r' (low_stock viewer
                   (snd (deduct_stock user pk amount reason now db)))
          /\ lowered r r').
Proof.
  split.
  - intros instance w r Hu Hr.
    eapply only_lowers_low_stock; [|exact Hr].
    now apply order_confirmation_only_lowers.
  - intros user pk amount reason now db r Hu Hr.
    eapply only_lowers_low_stock; [|exact Hr].
    now apply deduct_stock_only_lowers.
Qed.

Lemma deductions_keep_low_stock_witness :
  exists r',
    In r' (low_stock Fixture.admin
             (snd (deduct_stock Fixture.admin 1 (JNum 4) "spill" "20260101"
                     Fixture.db)))
    /\ lowered Fixture.sugar r'.
Proof.
  apply (proj2 (deductions_keep_low_stock Fixture.admin)).
  - apply unique_ids_fixture.
  - simpl. left. reflexivity.
Defined.




Lemma lowered_counts l l' :
  Forall2 lowered l l' ->
  List.length l' = List.length l
  /\ (List.length (filter is_low l) <= List.length (filter is_low l'))%nat
  /\ (Forall (fun r => 0 <= Ingredient.unit_cost r) l ->
      inventory_value l' <= inventory_value l).
Proof.
  induction 1 as [|r r' l l' Hl H [IH1 [IH2 IH3]]].
  - repeat split; [apply Nat.le_refl | intros _; simpl; lra].
  - split; [simpl; congruence|]. split.
    + cbn [filter]. destruct (is_low r) eqn:E.
      * rewrite (lowered_is_low _ _ Hl E). cbn [List.length]. lia.
      * destruct (is_low r'); cbn [List.length]; lia.
    + intro Hc. inversion Hc as [|? ? Hcr Hcl]. subst.
      specialize (IH3 Hcl). cbn [inventory_value fold_right].
      change (fold_right
                (fun i acc =>
                   Ingredient.current_stock i * Ingredient.unit_cost i + acc)
                0) with inventory_value.
      destruct Hl as (_ & _ & _ & _ & Hcost & Hle). rewrite Hcost.
      assert (Ingredient.current_stock r' * Ingredient.unit_cost r
              <= Ingredient.current_stock r * Ingredient.unit_cost r)
        by (apply Qmult_le_compat_r; assumption).
      lra.
Qed.

(** X12.  Through an order save the dashboard keeps its number of
    ingredients, its count of low-stock ingredients does not go down,
    and, with unit costs that are not negative, its inventory value does
    not go up. *)
Theorem dashboard_after_order_save viewer instance w :
  unique_ids (fst w) ->
  let before := dashboard_stats viewer (fst w) in
  let after :=
    dashboard_stats viewer
      (fst (snd (deduct_ingredients_on_order_confirmation instance w))) in
  DashboardStats.total_ingredients after
  = DashboardStats.total_ingredients before
  /\ (DashboardStats.low_stock_count before
      <= DashboardStats.low_stock_count after)%nat
  /\ (Forall (fun r => 0 <= Ingredient.unit_cost r) (ingredients (fst w)) ->
      DashboardStats.total_value after <= DashboardStats.total_value before).
Proof.
  intros Hu before after. subst before after.
  destruct (order_confirmation_only_lowers instance w Hu) as [H _].
  destruct (lowered_counts _ _ H) as (H1 & H2 & H3).
  unfold dashboard_stats, ingredient_queryset.
  destruct (_ || _ || _)%bool; simpl.
  - repeat split; assumption.
  - repeat split; [apply Nat.le_refl | intros _; lra].
Qed.

Lemma dashboard_after_order_save_witness :
  (DashboardStats.low_stock_count (dashboard_stats Fixture.admin Fixture.db)
   <= DashboardStats.low_stock_count
        (dashboard_stats Fixture.admin
           (fst (snd (deduct_ingredients_on_order_confirmation
                        (Instance.load Fixture.order_big) (Fixture.db, []))))))%nat.
Proof.
  apply (dashboard_after_order_save Fixture.admin
           (Instance.load Fixture.order_big) (Fixture.db, [])).
  apply unique_ids_fixture.
Defined.

(** ** The pending purchase orders *)

(** X13.  When a receipt has left every line of a purchase order with a
    received quantity of at least the quantity ordered, that purchase
    order is on nobody's list of pending orders any more. *)
Theorem completed_order_is_not_pending
    user pk received_items today db po :
  find (fun p => Z.eqb (PurchaseOrder.id p) pk)
       (purchase_order_queryset user db) = Some po ->
  lines_resolve db ->
  let db' := snd (receive_items user pk received_items today db) in
  Forall (fun it => PurchaseOrderItem.quantity it
                    <= PurchaseOrderItem.received_quantity it)
         (items_of pk db') ->
  forall viewer p, In p (pending_orders viewer db') -> PurchaseOrder.id p <> pk.
Proof.
  intros Hfind Hres db' Hall viewer p Hp. subst db'.
  unfold receive_items in *. rewrite Hfind in *.
  pose proof (find_some _ _ Hfind) as [_ Hid]. apply Z.eqb_eq in Hid.
  destruct (receive_loop_total user po received_items db Hres)
    as [db1 [Hloop _]].
  rewrite Hloop in *. rewrite Hid in *.
  assert (Hall1 : all_received pk db1 = true).
  { apply all_received_Forall.
    destruct (all_received pk db1); exact Hall. }
  rewrite Hall1 in Hp. simpl snd in Hp.
  unfold pending_orders, purchase_order_queryset in Hp.
  destruct (_ || _)%bool; [|destruct Hp].
  apply filter_In in Hp. destruct Hp as [Hin Hstatus].
  simpl in Hin. apply in_map_iff in Hin. destruct Hin as [r [Hr _]].
  destruct (Z.eqb (PurchaseOrder.id r) pk) eqn:E.
  - subst p. simpl in Hstatus. discriminate.
  - subst p. apply Z.eqb_neq in E. exact E.
Qed.

Lemma completed_order_is_not_pending_witness :
  Forall (fun p => PurchaseOrder.id p <> 1%Z)
    (pending_orders Fixture.admin
       (snd (receive_items Fixture.admin 1
               [ItemData.mk 11 50; ItemData.mk 12 20] "2026-01-02"
               Fixture.db))).
Proof.
  apply Forall_forall.
  apply (completed_order_is_not_pending Fixture.admin 1
           [ItemData.mk 11 50; ItemData.mk 12 20] "2026-01-02" Fixture.db
           Fixture.po eq_refl lines_resolve_fixture).
  apply all_received_Forall. vm_compute. reflexivity.
Defined.

(** ** Sample recipes *)

Lemma filter_names_length (p : string -> bool) (cakes : list Cake.t) :
  List.length (filter (fun c => p (Cake.name c)) cakes)
  = List.length (filter p (map Cake.name cakes)).
Proof.
  induction cakes as [|c l IH]; [reflexivity|].
  simpl. destruct (p (Cake.name c)); simpl; congruence.
Qed.

Lemma set_sample_table cakes out k R :
  fst (set_sample (cakes, out) (k, R))
  = map (fun c => if (sole_match (map Cake.name cakes) k
                      && icontains (Cake.name c) k)%bool
                  then Cake.mk (Cake.name c) R else c)
        cakes.
Proof.
  unfold set_sample, sole_match.
  rewrite <- (filter_names_length (fun n => icontains n k) cakes).
  destruct (filter (fun c => icontains (Cake.name c) k) cakes)
    as [|c1 [|c2 l]]; simpl.
  - symmetry. rewrite <- (map_id cakes) at 2. apply map_ext. reflexivity.
  - reflexivity.
  - symmetry. rewrite <- (map_id cakes) at 2. apply map_ext. reflexivity.
Qed.

Lemma set_sample_names st e :
  map Cake.name (fst (set_sample st e)) = map Cake.name (fst st).
Proof.
  destruct st as [cakes out], e as [k R]. rewrite set_sample_table.
  simpl. rewrite map_map. apply map_ext. intro c.
  destruct (_ && _)%bool; reflexivity.
Qed.

Lemma samples_table samples :
  forall cakes out,
    fst (fold_left set_sample samples (cakes, out))
    = map (assign (map Cake.name cakes) samples) cakes.
Proof.
  induction samples as [|[k R] L IH]; intros cakes out.
  - simpl. symmetry. apply map_id.
  - cbn [fold_left].
    destruct (set_sample (cakes, out) (k, R)) as [cakes1 out1] eqn:E.
    pose proof (set_sample_table cakes out k R) as Ht.
    pose proof (set_sample_names (cakes, out) (k, R)) as Hn.
    rewrite E in Ht, Hn. simpl in Ht, Hn.
    rewrite IH, Hn, Ht, map_map. reflexivity.
Qed.

Lemma assign_name names samples c :
  Cake.name (assign names samples c) = Cake.name c.
Proof.
  revert c. induction samples as [|e L IH]; intro c; [reflexivity|].
  unfold assign in *. cbn [fold_left]. rewrite IH.
  destruct (_ && _)%bool; reflexivity.
Qed.



Lemma assign_cases names samples :
  forall c,
    assign names samples c = c
    \/ exists k R,
        In (k, R) samples
        /\ sole_match names k = true
        /\ icontains (Cake.name c) k = true
        /\ assign names samples c = Cake.mk (Cake.name c) R.
Proof.
  induction samples as [|[k R] L IH]; intro c; [now left|].
  unfold assign in *. cbn [fold_left fst snd].
  destruct (sole_match names k && icontains (Cake.name c) k)%bool eqn:E.
  - apply andb_true_iff in E. destruct E as [E1 E2].
    destruct (IH (Cake.mk (Cake.name c) R)) as [H | (k' & R' & Hin & H1 & H2 & H)].
    + right. exists k, R. split; [now left|]. auto.
    + right. exists k', R'. split; [now right|]. auto.
  - destruct (IH c) as [H | (k' & R' & Hin & H1 & H2 & H)].
    + now left.
    + right. exists k', R'. split; [now right|]. auto.
Qed.


(** X15.  [create_sample_cake_ingredients] rewrites a cake only when its
    name is the only cake name that contains one of the three sample
    names, and then with the recipe of that sample; a cake whose name
    contains no sample name, or a sample name that other cake names
    contain as well, keeps the recipe it had. *)
Theorem sample_setup_writes_sole_matches (cakes : list Cake.t) :
  Forall2
    (fun c c' =>
       Cake.name c' = Cake.name c
       /\ (c' = c
           \/ exists k R,
               In (k, R) sample_ingredients
               /\ sole_match (map Cake.name cakes) k = true
               /\ icontains (Cake.name c) k = true
               /\ Cake.ingredients c' = R))
    cakes (fst (create_sample_cake_ingredients cakes)).
Proof.
  unfold create_sample_cake_ingredients. rewrite samples_table.
  apply Forall2_map_r. intros c _. split; [apply assign_name|].
  destruct (assign_cases (map Cake.name cakes) sample_ingredients c)
    as [H | (k & R & Hin & H1 & H2 & H)].
  - now left.
  - right. exists k, R. rewrite H. auto.
Qed.

(** ** Orders whose lines all resolve *)

Lemma deduct_entry_prints cake_name quantity order_number system_user d db out :
  exists printed,
    snd (world_of (deduct_entry cake_name quantity order_number system_user d
                     (db, out)))
    = out ++ printed
    /\ (resolves db d = true ->
        Forall (fun e => skip_warning e = false) printed).
Proof.
  unfold deduct_entry, resolves.
  destruct (String.eqb _ _ || Qle_bool _ _)%bool.
  { exists []. split; [symmetry; apply app_nil_r | constructor]. }
  destruct (ingredients_named (IngredientData.name d) db) as [|ing others].
  { eexists. split; [reflexivity | discriminate]. }
  destruct others as [|o others];
    destruct (Dec.ltb (Ingredient.current_stock ing) _);
    destruct (Dec.ltb 0 _);
    try destruct (StockMovement_create _ _);
    cbn [world_of snd];
    rewrite <- ?app_assoc;
    (eexists; split; [reflexivity | intros _; repeat constructor])
    || (exists []; split; [symmetry; apply app_nil_r | constructor]).
Qed.

Lemma deduct_entries_prints cake_name quantity order_number system_user db0 l :
  forall w,
    unique_ids (fst w) ->
    map Ingredient.name (ingredients (fst w))
    = map Ingredient.name (ingredients db0) ->
    Forall (fun d => resolves db0 d = true) l ->
    exists printed,
      snd (world_of (deduct_entries cake_name quantity order_number
                       system_user l w))
      = snd w ++ printed
      /\ Forall (fun e => skip_warning e = false) printed.
Proof.
  induction l as [|d l IH]; intros [db out] Hu Hn Hres.
  - exists []. split; [symmetry; apply app_nil_r | constructor].
  - inversion Hres as [|? ? Hd Hl]. subst. simpl in Hu, Hn.
    cbn [deduct_entries].
    destruct (deduct_entry_prints cake_name quantity order_number system_user
                d db out) as [p1 [Hp1 Hq1]].
    pose proof (deduct_entry_steps cake_name quantity order_number system_user
                  d (db, out)) as Hs.
    destruct (deduct_entry_Done cake_name quantity order_number system_user d
                (db, out)) as [w1 E1].
    rewrite E1 in *. simpl in Hs, Hp1.
    destruct (steps_names _ _ Hs Hu) as [Hu1 Hn1].
    destruct (IH w1 Hu1 ltac:(congruence) Hl) as [p2 [Hp2 Hq2]].
    exists (p1 ++ p2). split.
    + rewrite Hp2, Hp1. cbn [snd]. symmetry; apply app_assoc.
    + apply Forall_app. split; [|exact Hq2].
      apply Hq1. rewrite (resolves_names db0 db d Hn). exact Hd.
Qed.

Lemma deduct_order_items_prints order system_user db0 items :
  forall w,
    unique_ids (fst w) ->
    map Ingredient.name (ingredients (fst w))
    = map Ingredient.name (ingredients db0) ->
    fully_resolvable db0 items ->
    exists printed,
      snd (deduct_order_items order system_user items w) = snd w ++ printed
      /\ Forall (fun e => skip_warning e = false) printed.
Proof.
  induction items as [|it items IH]; intros w Hu Hn Hres.
  - exists []. split; [symmetry; apply app_nil_r | constructor].
  - inversion Hres as [|? ? [Hrec Hent] Hrest]. subst.
    cbn [deduct_order_items].
    set (w1 := deduct_ingredients_for_cake (OrderItem.cake it)
                 (OrderItem.quantity it) order system_user w).
    assert (H1 : exists p1, snd w1 = snd w ++ p1
                            /\ Forall (fun e => skip_warning e = false) p1).
    { unfold w1, deduct_ingredients_for_cake.
      unfold has_recipe in Hrec.
      destruct (Cake.ingredients (OrderItem.cake it)) as [|d l] eqn:E;
        [discriminate|].
      destruct (deduct_entries_prints (Cake.name (OrderItem.cake it))
                  (OrderItem.quantity it) (Order.order_number order)
                  system_user db0 (d :: l) w Hu Hn Hent) as [p [Hp Hq]].
      destruct (deduct_entries _ _ _ _ (d :: l) w) as [w'|[db' out']];
        simpl in Hp.
      - exists p. auto.
      - exists (p ++ [ErrorDeducting (Cake.name (OrderItem.cake it))]).
        cbn [snd]. rewrite Hp. split; [symmetry; apply app_assoc|].
        apply Forall_app. split; [exact Hq | repeat constructor]. }
    destruct H1 as [p1 [Hp1 Hq1]].
    destruct (steps_names _ _
                (deduct_ingredients_for_cake_steps (OrderItem.cake it)
                   (OrderItem.quantity it) order system_user w) Hu)
      as [Hu1 Hn1].
    fold w1 in Hu1, Hn1.
    destruct (IH w1 Hu1 ltac:(congruence) Hrest) as [p2 [Hp2 Hq2]].
    exists (p1 ++ p2). split.
    + rewrite Hp2, Hp1. symmetry; apply app_assoc.
    + apply Forall_app. auto.
Qed.

Lemma order_items_print_no_skip order system_user items db out :
  unique_ids db ->
  fully_resolvable db items ->
  exists printed,
    snd (deduct_order_items order system_user items (db, out)) = out ++ printed
    /\ Forall (fun e => skip_warning e = false) printed.
Proof.
  intros Hu Hres.
  apply (deduct_order_items_prints order system_user db items (db, out));
    auto.
Qed.

Lemma order_confirmation_prints_no_skip (instance : Instance.t)
    (db : DB) (out : list Log) :
  unique_ids db ->
  fully_resolvable db (Order.items (Instance.row instance)) ->
  exists printed,
    snd (snd (deduct_ingredients_on_order_confirmation instance (db, out)))
    = out ++ printed
    /\ Forall (fun e => skip_warning e = false) printed.
Proof.
  intros Hu Hres. unfold deduct_ingredients_on_order_confirmation.
  destruct (qualifying _);
    [|exists []; split; [symmetry; apply app_nil_r | constructor]].
  destruct (Instance._ingredients_deducted instance);
    [exists []; split; [symmetry; apply app_nil_r | constructor]|].
  cbn [fst snd].
  destruct (find_system_user db) as [u|].
  - cbn [snd]. now apply order_items_print_no_skip.
  - cbn [snd]. eexists. split; [reflexivity | repeat constructor].
Qed.

(** X16.  When every cake of an order has a recipe and every entry of
    these recipes names an ingredient of the database, saving the order
    prints neither the warning about a cake without ingredients nor the
    warning about an ingredient that was not found, however the balances
    change while the order is processed. *)
Theorem resolvable_order_prints_no_skip_warning (instance : Instance.t)
    (db : DB) (out : list Log) :
  unique_ids db ->
  fully_resolvable db (Order.items (Instance.row instance)) ->
  exists printed,
    snd (snd (deduct_ingredients_on_order_confirmation instance (db, out)))
    = out ++ printed
    /\ Forall (fun e => skip_warning e = false) printed.
Proof. apply order_confirmation_prints_no_skip. Qed.

Lemma resolvable_order_prints_no_skip_warning_witness :
  exists printed,
    snd (snd (deduct_ingredients_on_order_confirmation
                (Instance.load Fixture.order_big) (Fixture.db, [])))
    = [] ++ printed
    /\ Forall (fun e => skip_warning e = false) printed.
Proof.
  apply (resolvable_order_prints_no_skip_warning
           (Instance.load Fixture.order_big) Fixture.db []).
  - apply unique_ids_fixture.
  - repeat constructor.
Defined.

(** ** Recipes set up by the script *)

Lemma setup_loop_table cakes :
  forall n out,
    fst (fst (setup_loop cakes n out))
    = map (fun c => Cake.mk (Cake.name c) (ingredients_to_use (Cake.name c)))
          cakes
    /\ snd (fst (setup_loop cakes n out)) = (n + List.length cakes)%nat
    /\ (In AllIngredientsExist (snd (setup_loop cakes n out)) ->
        In AllIngredientsExist out).
Proof.
  induction cakes as [|c l IH]; intros n out.
  - simpl. repeat split; auto.
  - cbn [setup_loop].
    specialize (IH (S n)
                  (out ++ [UpdatedCake (Cake.name c)
                             (List.length (ingredients_to_use (Cake.name c)))])).
    destruct (setup_loop l (S n) _) as [[rest' k] out'].
    simpl in *. destruct IH as (H1 & H2 & H3).
    split; [now rewrite H1|]. split; [lia|].
    intro H. apply H3 in H. apply in_app_or in H.
    destruct H as [H | [H | []]]; [exact H | discriminate].
Qed.

Lemma ingredients_to_use_sample cake_name :
  In (ingredients_to_use cake_name) (map snd setup_ingredients).
Proof.
  unfold ingredients_to_use.
  destruct (find _ setup_ingredients) as [[k l]|] eqn:F.
  - destruct l as [|d l]; [simpl; now left|].
    apply find_some in F. destruct F as [Hin _].
    apply in_map_iff. exists (k, d :: l). auto.
  - simpl. now left.
Qed.

Lemma setup_recipe_nonempty l : In l (map snd setup_ingredients) -> l <> [].
Proof.
  simpl. intros H.
  repeat (destruct H as [<-|H]; [discriminate|]). destruct H.
Qed.

Lemma setup_recipe_names l d :
  In l (map snd setup_ingredients) -> In d l ->
  In (IngredientData.name d) all_ingredient_names.
Proof.
  intros Hl Hd. unfold all_ingredient_names. apply nodup_In.
  apply in_flat_map. apply in_map_iff in Hl. destruct Hl as [e [He Hin]].
  exists e. split; [exact Hin|]. rewrite He. now apply in_map.
Qed.

Lemma nothing_missing_resolves db l d :
  missing_ingredients db = [] ->
  In l (map snd setup_ingredients) -> In d l -> resolves db d = true.
Proof.
  intros Hm Hl Hd. unfold resolves.
  destruct (ingredients_named (IngredientData.name d) db) eqn:E;
    [|reflexivity].
  exfalso.
  assert (Hin : In (IngredientData.name d) (missing_ingredients db)).
  { unfold missing_ingredients. apply filter_In.
    split; [eapply setup_recipe_names; eauto|]. rewrite E. reflexivity. }
  rewrite Hm in Hin. destruct Hin.
Qed.

(** X17.  When [setup_cake_ingredients] reports that all required
    ingredients exist, no order for cakes of the table it has written is
    skipped in part: saving such an order prints neither the warning about
    a cake without ingredients nor the warning about an ingredient that
    was not found. *)
Theorem set_up_cakes_are_fully_deducted
    (cakes : list Cake.t) (db : DB) (instance : Instance.t) (out : list Log) :
  unique_ids db ->
  In AllIngredientsExist (snd (setup_cake_ingredients cakes db)) ->
  (forall it, In it (Order.items (Instance.row instance)) ->
              In (OrderItem.cake it) (fst (setup_cake_ingredients cakes db))) ->
  exists printed,
    snd (snd (deduct_ingredients_on_order_confirmation instance (db, out)))
    = out ++ printed
    /\ Forall (fun e => skip_warning e = false) printed.
Proof.
  intros Hu Hok Hcakes.
  unfold setup_cake_ingredients in *.
  pose proof (setup_loop_table cakes 0
                [SettingUp; FoundCakes (List.length cakes)]) as (Ht & _ & Hout).
  destruct (setup_loop cakes 0 _) as [[cakes' n] out'].
  simpl in Ht, Hout, Hok, Hcakes. subst cakes'.
  assert (Hm : missing_ingredients db = []).
  { apply in_app_or in Hok. destruct Hok as [H | H].
    - apply Hout in H. destruct H as [H | [H | []]]; discriminate.
    - destruct H as [H | [H | [H | []]]]; try discriminate.
      destruct (missing_ingredients db); [reflexivity | discriminate]. }
  apply order_confirmation_prints_no_skip; [exact Hu|].
  unfold fully_resolvable. apply Forall_forall. intros it Hit.
  specialize (Hcakes it Hit). apply in_map_iff in Hcakes.
  destruct Hcakes as [c [Hc _]]. rewrite <- Hc. cbn [Cake.ingredients].
  pose proof (ingredients_to_use_sample (Cake.name c)) as Hs.
  split.
  - unfold has_recipe. cbn [Cake.ingredients].
    pose proof (setup_recipe_nonempty _ Hs) as Hne.
    destruct (ingredients_to_use (Cake.name c)); [contradiction | reflexivity].
  - apply Forall_forall. intros d Hd.
    eapply nothing_missing_resolves; eauto.
Qed.

Lemma set_up_cakes_are_fully_deducted_witness :
  exists printed,
    snd (snd (deduct_ingredients_on_order_confirmation
                (Instance.load Pantry.order) (Pantry.db, [])))
    = [] ++ printed
    /\ Forall (fun e => skip_warning e = false) printed.
Proof.
  apply (set_up_cakes_are_fully_deducted Pantry.cakes Pantry.db
           (Instance.load Pantry.order) []).
  - unfold unique_ids. simpl. repeat constructor; simpl; intuition discriminate.
  - vm_compute. repeat (try (left; reflexivity); right).
  - intros it Hit. simpl in Hit.
    destruct Hit as [<- | [<- | []]]; vm_compute; tauto.
Defined.

(** ** Entries of a receipt that designate no line *)

Lemma receive_item_keys user purchase_order item_data db :
  unique_line_ids db ->
  let db' := db_of (receive_item user purchase_order item_data db) in
  map (fun r => (PurchaseOrderItem.id r, PurchaseOrderItem.purchase_order r))
      (purchase_order_items db')
  = map (fun r => (PurchaseOrderItem.id r, PurchaseOrderItem.purchase_order r))
        (purchase_order_items db).
Proof.
  intro Hu. cbv zeta. unfold receive_item.
  destruct (get_po_item _ _ db) as [it|] eqn:Hit; [|reflexivity].
  set (it' := PurchaseOrderItem.set_received_quantity _ it).
  unfold get_po_item in Hit. apply find_some in Hit. destruct Hit as [Hin _].
  assert (H1 : map (fun r => (PurchaseOrderItem.id r,
                              PurchaseOrderItem.purchase_order r))
                   (purchase_order_items (save_po_item it' db))
               = map (fun r => (PurchaseOrderItem.id r,
                                PurchaseOrderItem.purchase_order r))
                     (purchase_order_items db)).
  { change (purchase_order_items (save_po_item it' db))
      with (map (fun r => if Z.eqb (PurchaseOrderItem.id r)
                                   (PurchaseOrderItem.id it')
                          then it' else r)
                (purchase_order_items db)).
    rewrite map_map. apply map_ext_in. intros r Hr. cbv beta.
    destruct (Z.eqb (PurchaseOrderItem.id r) (PurchaseOrderItem.id it'))
      eqn:E; [|reflexivity].
    apply Z.eqb_eq in E.
    assert (r = it)
      by (apply (NoDup_map_same PurchaseOrderItem.id
                   (purchase_order_items db)); auto).
    subst r. reflexivity. }
  destruct (Dec.ltb 0 _); [|exact H1].
  destruct (StockMovement_create_in _ _ _ _ _ _ _) as [db2|] eqn:Hc;
    [|exact H1].
  apply create_in_inv in Hc. destruct Hc as (ing' & l & _ & ->). exact H1.
Qed.

Lemma known_line_keys db db' po x :
  map (fun r => (PurchaseOrderItem.id r, PurchaseOrderItem.purchase_order r))
      (purchase_order_items db')
  = map (fun r => (PurchaseOrderItem.id r, PurchaseOrderItem.purchase_order r))
        (purchase_order_items db) ->
  known_line db' po x = known_line db po x.
Proof.
  unfold known_line, get_po_item.
  generalize (purchase_order_items db) as l.
  generalize (purchase_order_items db') as l'.
  induction l' as [|a l' IH]; intros [|b l] H; try discriminate;
    [reflexivity|].
  simpl in H. injection H as Hid Hpo H. simpl. rewrite Hid, Hpo.
  destruct (_ && _)%bool; [reflexivity | now apply IH].
Qed.

Lemma receive_loop_known user purchase_order db0 received_items :
  forall db,
    unique_line_ids db ->
    map (fun r => (PurchaseOrderItem.id r, PurchaseOrderItem.purchase_order r))
        (purchase_order_items db)
    = map (fun r => (PurchaseOrderItem.id r,
                     PurchaseOrderItem.purchase_order r))
          (purchase_order_items db0) ->
    receive_loop user purchase_order received_items db
    = receive_loop user purchase_order
        (filter (known_line db0 (PurchaseOrder.id purchase_order))
                received_items)
        db.
Proof.
  induction received_items as [|x l IH]; intros db Hu Hk; [reflexivity|].
  cbn [filter].
  rewrite <- (known_line_keys db0 db _ x Hk).
  destruct (known_line db (PurchaseOrder.id purchase_order) x) eqn:K.
  - cbn [receive_loop].
    pose proof (receive_item_keys user purchase_order x db Hu) as Hk1.
    destruct (receive_item_other_orders user purchase_order x db
                (PurchaseOrder.id purchase_order + 1) Hu ltac:(lia))
      as (_ & Hu1 & _).
    destruct (receive_item user purchase_order x db) as [db1|db1];
      [|reflexivity].
    simpl in Hk1, Hu1. apply IH; [exact Hu1 | congruence].
  - cbn [receive_loop]. unfold receive_item. unfold known_line in K.
    destruct (get_po_item _ _ db); [discriminate|]. now apply IH.
Qed.

(** X18.  The entries of a receipt whose item id is no line of the
    purchase order (an unknown id, or a line of another purchase order)
    have no effect at all: the answer and the database are those of the
    receipt with these entries taken out. *)
Theorem unknown_lines_have_no_effect user pk received_items today db po :
  unique_line_ids db ->
  find (fun p => Z.eqb (PurchaseOrder.id p) pk)
       (purchase_order_queryset user db) = Some po ->
  receive_items user pk received_items today db
  = receive_items user pk (filter (known_line db pk) received_items) today db.
Proof.
  intros Hu Hfind. unfold receive_items. rewrite Hfind.
  pose proof (find_some _ _ Hfind) as [_ Hid]. apply Z.eqb_eq in Hid.
  rewrite <- Hid.
  rewrite (receive_loop_known user po db received_items db Hu eq_refl).
  reflexivity.
Qed.

Lemma unknown_lines_have_no_effect_witness :
  receive_items Fixture.admin 1
    [ItemData.mk 21 5; ItemData.mk 11 50; ItemData.mk 99 1] "2026-01-02"
    Scenario.db
  = receive_items Fixture.admin 1 [ItemData.mk 11 50] "2026-01-02" Scenario.db.
Proof.
  rewrite (unknown_lines_have_no_effect Fixture.admin 1
             [ItemData.mk 21 5; ItemData.mk 11 50; ItemData.mk 99 1]
             "2026-01-02" Scenario.db Fixture.po unique_line_ids_scenario
             eq_refl).
  reflexivity.
Defined.

(** ** What the handler announces *)

Lemma deducted_quantities_app a b :
  deducted_quantities (a ++ b) = deducted_quantities a ++ deducted_quantities b.
Proof. unfold deducted_quantities. apply flat_map_app. Qed.

Ltac announce :=
  cbn [world_of fst snd movements with_movements save_ingredient
       with_ingredients];
  rewrite <- ?app_assoc;
  first
    [ exists [], []; split; [symmetry; apply app_nil_r|];
      split; [symmetry; apply app_nil_r | split; [reflexivity | constructor]]
    | eexists; exists []; split; [reflexivity|];
      split; [symmetry; apply app_nil_r | split; [reflexivity | constructor]]
    | eexists; eexists; split; [reflexivity|];
      split; [reflexivity | split; [reflexivity | repeat constructor]] ].

Lemma deduct_entry_announces cake_name quantity order_number system_user d
      db out :
  exists printed added,
    snd (world_of (deduct_entry cake_name quantity order_number system_user d
                     (db, out)))
    = out ++ printed
    /\ movements
         (fst (world_of (deduct_entry cake_name quantity order_number
                           system_user d (db, out))))
       = movements db ++ added
    /\ deducted_quantities printed = map StockMovement.quantity added
    /\ Forall (fun m => StockMovement.movement_type m = MoveOut) added.
Proof.
  unfold deduct_entry.
  destruct (String.eqb _ _ || Qle_bool _ _)%bool; [announce|].
  destruct (ingredients_named (IngredientData.name d) db) as [|ing others];
    [announce|].
  destruct others as [|o others];
    destruct (Dec.ltb (Ingredient.current_stock ing) _);
    destruct (Dec.ltb 0 _);
    try (destruct (StockMovement_create _ _) as [db2|] eqn:Hc;
         [apply create_inv in Hc; destruct Hc as [-> _]|]);
    announce.
Qed.

Lemma deduct_entries_announce cake_name quantity order_number system_user l :
  forall w,
    exists printed added,
      snd (world_of (deduct_entries cake_name quantity order_number
                       system_user l w))
      = snd w ++ printed
      /\ movements
           (fst (world_of (deduct_entries cake_name quantity order_number
                             system_user l w)))
         = movements (fst w) ++ added
      /\ deducted_quantities printed = map StockMovement.quantity added
      /\ Forall (fun m => StockMovement.movement_type m = MoveOut) added.
Proof.
  induction l as [|d l IH]; intros [db out].
  - exists [], []. simpl. rewrite !app_nil_r. auto.
  - cbn [deduct_entries].
    destruct (deduct_entry_announces cake_name quantity order_number
                system_user d db out) as (p1 & a1 & Hp1 & Ha1 & Hq1 & Ho1).
    destruct (deduct_entry cake_name quantity order_number system_user d
                (db, out)) as [w1|w1]; cbn [world_of] in *.
    + destruct (IH w1) as (p2 & a2 & Hp2 & Ha2 & Hq2 & Ho2).
      exists (p1 ++ p2), (a1 ++ a2). cbn [fst snd].
      rewrite Hp2, Hp1, Ha2, Ha1, !app_assoc.
      split; [reflexivity|]. split; [reflexivity|].
      rewrite deducted_quantities_app, map_app.
      split; [congruence | apply Forall_app; auto].
    + exists p1, a1. auto.
Qed.

Lemma deduct_order_items_announce order system_user items :
  forall w,
    exists printed added,
      snd (deduct_order_items order system_user items w) = snd w ++ printed
      /\ movements (fst (deduct_order_items order system_user items w))
         = movements (fst w) ++ added
      /\ deducted_quantities printed = map StockMovement.quantity added
      /\ Forall (fun m => StockMovement.movement_type m = MoveOut) added.
Proof.
  induction items as [|it items IH]; intro w.
  - exists [], []. simpl. rewrite !app_nil_r. auto.
  - cbn [deduct_order_items].
    set (w1 := deduct_ingredients_for_cake (OrderItem.cake it)
                 (OrderItem.quantity it) order system_user w).
    assert (H1 : exists p1 a1,
               snd w1 = snd w ++ p1
               /\ movements (fst w1) = movements (fst w) ++ a1
               /\ deducted_quantities p1 = map StockMovement.quantity a1
               /\ Forall (fun m => StockMovement.movement_type m = MoveOut) a1).
    { unfold w1, deduct_ingredients_for_cake.
      destruct (Cake.ingredients (OrderItem.cake it)) as [|d l] eqn:E.
      - eexists. exists []. cbn [fst snd].
        split; [reflexivity|]. split; [now rewrite app_nil_r|].
        split; [reflexivity | constructor].
      - destruct (deduct_entries_announce (Cake.name (OrderItem.cake it))
                    (OrderItem.quantity it) (Order.order_number order)
                    system_user (d :: l) w) as (p & a & Hp & Ha & Hq & Ho).
        destruct (deduct_entries _ _ _ _ (d :: l) w) as [w'|[db' out']];
          cbn [world_of fst snd] in *.
        + exists p, a. auto.
        + exists (p ++ [ErrorDeducting (Cake.name (OrderItem.cake it))]), a.
          rewrite Hp, app_assoc. split; [reflexivity|]. split; [exact Ha|].
          rewrite deducted_quantities_app. simpl. rewrite app_nil_r.
          auto. }
    destruct H1 as (p1 & a1 & Hp1 & Ha1 & Hq1 & Ho1).
    destruct (IH w1) as (p2 & a2 & Hp2 & Ha2 & Hq2 & Ho2).
    exists (p1 ++ p2), (a1 ++ a2).
    rewrite Hp2, Hp1, Ha2, Ha1, !app_assoc.
    split; [reflexivity|]. split; [reflexivity|].
    rewrite deducted_quantities_app, map_app.
    split; [congruence | apply Forall_app; auto].
Qed.

(** X19.  What the handler announces is what it has written: the
    quantities of the 'Deducted' lines that an order save prints are, in
    order, the quantities of the movements that it appends, and these
    movements are all of kind 'out'. *)
Theorem announced_deductions_are_the_movements (instance : Instance.t)
    (w : World) :
  exists printed added,
    snd (snd (deduct_ingredients_on_order_confirmation instance w))
    = snd w ++ printed
    /\ movements
         (fst (snd (deduct_ingredients_on_order_confirmation instance w)))
       = movements (fst w) ++ added
    /\ deducted_quantities printed = map StockMovement.quantity added
    /\ Forall (fun m => StockMovement.movement_type m = MoveOut) added.
Proof.
  unfold deduct_ingredients_on_order_confirmation.
  destruct (qualifying _);
    [|exists [], []; simpl; rewrite !app_nil_r; auto].
  destruct (Instance._ingredients_deducted instance);
    [exists [], []; simpl; rewrite !app_nil_r; auto|].
  destruct (find_system_user (fst w)).
  - cbn [snd]. apply deduct_order_items_announce.
  - eexists. exists []. cbn [fst snd].
    split; [reflexivity|]. split; [now rewrite app_nil_r|].
    split; [reflexivity | constructor].
Qed.
